(** * NQ opening-momentum scalper: strategy state machine and Monte Carlo
      bootstrap, embedded from [strategy.py] and
      [Monte_Carlo_Analysis/monte_carlo.py].

    Numbers: Python floats are modelled as exact rationals ([Q]); an
    indicator value that is not available (NaN during warm-up) is [None].
    Dates are proleptic day ordinals ([Z]); a time of day is the record of
    its four [datetime.time] fields. *)

From Stdlib Require Import ZArith QArith Qround List Bool Lia Lqa Sorted.
From Stdlib Require Import Floats.PrimFloat.
Import ListNotations.

Local Open Scope Q_scope.

(** ** Comparisons and errors shared by both programs *)

Definition Qltb (x y : Q) : bool := negb (Qle_bool y x).
Definition Qgtb (x y : Q) : bool := Qltb y x.

Inductive exn := TypeError | ZeroDivisionError | IndexError | KeyError.

Inductive result (A : Type) :=
| Ok (a : A)
| Raise (e : exn).
Arguments Ok {A} a.
Arguments Raise {A} e.

(** ** strategy.py *)

Module Strategy.

(** [datetime.time]: compared field by field, in this order. *)
Record time := mk_time { hour : Z; minute : Z; second : Z; microsecond : Z }.

Definition time_hm (h m : Z) : time := mk_time h m 0 0.

Definition time_eqb (a b : time) : bool :=
  (hour a =? hour b)%Z && (minute a =? minute b)%Z &&
  (second a =? second b)%Z && (microsecond a =? microsecond b)%Z.

Definition time_ltb (a b : time) : bool :=
  if (hour a <? hour b)%Z then true
  else if (hour b <? hour a)%Z then false
  else if (minute a <? minute b)%Z then true
  else if (minute b <? minute a)%Z then false
  else if (second a <? second b)%Z then true
  else if (second b <? second a)%Z then false
  else (microsecond a <? microsecond b)%Z.

(** [a >= b] on times. *)
Definition time_geb (a b : time) : bool := negb (time_ltb a b).

(** [(datetime.combine(today, t) + timedelta(minutes=m)).time()]. *)
Definition add_minutes (t : time) (m : Z) : time :=
  let tot := (hour t * 60 + minute t + m)%Z in
  mk_time ((tot / 60) mod 24)%Z (tot mod 60)%Z (second t) (microsecond t).

Definition market_open : time := time_hm 9 30.
Definition market_close : time := time_hm 15 45.
Definition first_bar_close : time := add_minutes market_open 5.

Record Params := mk_params {
  daily_loss_limit : Q;
  fixed_size : Z;
  trail_atr : Q;
  vol_multiplier : Q;
  multiplier : Q;
  debug : bool
}.

Definition default_params : Params :=
  mk_params 200 1 3 3 2 true.

(** What one call of [next] reads from the data feed, the indicators and
    the broker.  [dataclose_prev] is [self.dataclose[-1]]; [atr] and
    [vol_ma] are [None] while the indicator has no value. *)
Record Obs := mk_obs {
  dt_date : Z;
  dt_time : time;
  dataopen : Q;
  datahigh : Q;
  datalow : Q;
  dataclose : Q;
  dataclose_prev : Q;
  volume : Q;
  atr : option Q;
  vol_ma : option Q;
  position_size : Z;
  position_price : Q;
  broker_value : Q
}.

(** The attributes set in [__init__]. *)
Record State := mk_state {
  current_day : option Z;
  start_day_value : option Q;
  highest_high : option Q;
  lowest_low : option Q;
  trading_halted : bool;
  daily_realized_pnl : Q
}.

Definition init : State := mk_state None None None None false 0.

Inductive Signal := TrailingStop | VolumeSpikeBearish | VolumeSpikeBullish.

Inductive Msg :=
| MTradeClosed
| MStartOfDay
| MDailyLossHit
| MReversalLongShort (sig : Signal)
| MReversalShortLong (sig : Signal)
| MMarketClose
| MFirstBarLong
| MFirstBarShort.

(** The calls a handler makes on [self]: [log] (printed when
    [params.debug]), [close], [buy] and [sell]. *)
Inductive Action :=
| ALog (m : Msg)
| AClose
| ABuy (size : Z)
| ASell (size : Z).

(** State, trace and exceptions threaded through a handler. *)
Definition M (A : Type) : Type :=
  State -> list Action -> result (A * State * list Action).

Definition ret {A} (a : A) : M A := fun s t => Ok (a, s, t).

Definition bind {A B} (c : M A) (k : A -> M B) : M B :=
  fun s t =>
    match c s t with
    | Ok (a, s', t') => k a s' t'
    | Raise e => Raise e
    end.

Definition raise {A} (e : exn) : M A := fun _ _ => Raise e.
Definition get : M State := fun s t => Ok (s, s, t).
Definition put (s : State) : M unit := fun _ t => Ok (tt, s, t).
Definition emit (a : Action) : M unit := fun s t => Ok (tt, s, t ++ [a]).

Declare Scope strat_scope.
Delimit Scope strat_scope with strat.
Notation "x <- c ;; k" := (bind c (fun x => k))
  (at level 61, c at next level, right associativity) : strat_scope.
Notation "c ;; k" := (bind c (fun _ => k))
  (at level 61, right associativity) : strat_scope.
Local Open Scope strat_scope.

Definition log (m : Msg) : M unit := emit (ALog m).
Definition close : M unit := emit AClose.
Definition buy (size : Z) : M unit := emit (ABuy size).
Definition sell (size : Z) : M unit := emit (ASell size).

Definition set_current_day (d : Z) (s : State) : State :=
  mk_state (Some d) (start_day_value s) (highest_high s) (lowest_low s)
           (trading_halted s) (daily_realized_pnl s).
Definition set_highest_high (h : Q) (s : State) : State :=
  mk_state (current_day s) (start_day_value s) (Some h) (lowest_low s)
           (trading_halted s) (daily_realized_pnl s).
Definition set_lowest_low (l : Q) (s : State) : State :=
  mk_state (current_day s) (start_day_value s) (highest_high s) (Some l)
           (trading_halted s) (daily_realized_pnl s).
Definition set_trading_halted (b : bool) (s : State) : State :=
  mk_state (current_day s) (start_day_value s) (highest_high s) (lowest_low s)
           b (daily_realized_pnl s).
Definition set_daily_realized_pnl (q : Q) (s : State) : State :=
  mk_state (current_day s) (start_day_value s) (highest_high s) (lowest_low s)
           (trading_halted s) q.
Definition set_start_day_value (q : Q) (s : State) : State :=
  mk_state (current_day s) (Some q) (highest_high s) (lowest_low s)
           (trading_halted s) (daily_realized_pnl s).

Definition modify (f : State -> State) : M unit :=
  s <- get ;; put (f s).

(** Python's [max(a, b)] and [min(a, b)] on two floats. *)
Definition py_max (a b : Q) : Q := if Qgtb b a then b else a.
Definition py_min (a b : Q) : Q := if Qltb b a then b else a.

(** [bool(self.position)]. *)
Definition has_position (o : Obs) : bool := negb (position_size o =? 0)%Z.

Definition notify_trade (isclosed : bool) (pnlcomm : Q) : M unit :=
  if negb isclosed then ret tt
  else
    s <- get ;;
    put (set_daily_realized_pnl (daily_realized_pnl s + pnlcomm) s) ;;
    log MTradeClosed.

Definition start_of_day_reset (o : Obs) : M unit :=
  modify (set_daily_realized_pnl 0) ;;
  modify (set_trading_halted false) ;;
  modify (set_start_day_value (broker_value o)) ;;
  log MStartOfDay.

Definition unrealized_pnl (p : Params) (o : Obs) : Q :=
  if has_position o then
    let diff := dataclose o - position_price o in
    let diff := if (position_size o <? 0)%Z then - diff else diff in
    diff * multiplier p * inject_Z (Z.abs (position_size o))
  else 0.

Definition total_daily_pnl (p : Params) (s : State) (o : Obs) : Q :=
  daily_realized_pnl s + unrealized_pnl p o.

Definition check_daily_loss_limit (p : Params) (o : Obs) : M bool :=
  s <- get ;;
  if Qltb (total_daily_pnl p s o) (- daily_loss_limit p) then
    log MDailyLossHit ;;
    close ;;
    modify (set_trading_halted true) ;;
    ret true
  else ret false.

Definition reverse_position (p : Params) (o : Obs) (signal_type : Signal)
  : M unit :=
  let size := fixed_size p in
  if (0 <? position_size o)%Z then
    log (MReversalLongShort signal_type) ;;
    close ;;
    sell size ;;
    modify (set_lowest_low (datalow o))
  else if (position_size o <? 0)%Z then
    log (MReversalShortLong signal_type) ;;
    close ;;
    buy size ;;
    modify (set_highest_high (datahigh o))
  else ret tt.

(** [self.highest_high = max(self.highest_high, self.datahigh[0])]; the
    comparison of a float with [None] raises [TypeError]. *)
Definition update_extremes (o : Obs) : M unit :=
  s <- get ;;
  if (0 <? position_size o)%Z then
    match highest_high s with
    | Some h => put (set_highest_high (py_max h (datahigh o)) s)
    | None => raise TypeError
    end
  else if (position_size o <? 0)%Z then
    match lowest_low s with
    | Some l => put (set_lowest_low (py_min l (datalow o)) s)
    | None => raise TypeError
    end
  else ret tt.

(** [self.atr[0] * self.params.trail_atr]; NaN stays NaN. *)
Definition reversal_dist (p : Params) (o : Obs) : option Q :=
  match atr o with
  | Some a => Some (a * trail_atr p)
  | None => None
  end.

(** [self.dataclose[0] < (self.highest_high - reversal_dist)]; a comparison
    with NaN is false, a subtraction from [None] raises. *)
Definition trail_long_hit (p : Params) (s : State) (o : Obs) : result bool :=
  match highest_high s with
  | None => Raise TypeError
  | Some h =>
      match reversal_dist p o with
      | Some d => Ok (Qltb (dataclose o) (h - d))
      | None => Ok false
      end
  end.

Definition trail_short_hit (p : Params) (s : State) (o : Obs) : result bool :=
  match lowest_low s with
  | None => Raise TypeError
  | Some l =>
      match reversal_dist p o with
      | Some d => Ok (Qgtb (dataclose o) (l + d))
      | None => Ok false
      end
  end.

Definition lift {A} (r : result A) : M A :=
  match r with
  | Ok a => ret a
  | Raise e => raise e
  end.

(** Block A of the trade management: returns [reversal_triggered]. *)
Definition trailing_reversal (p : Params) (o : Obs) : M bool :=
  s <- get ;;
  if (0 <? position_size o)%Z then
    hit <- lift (trail_long_hit p s o) ;;
    if hit then reverse_position p o TrailingStop ;; ret true
    else ret false
  else if (position_size o <? 0)%Z then
    hit <- lift (trail_short_hit p s o) ;;
    if hit then reverse_position p o TrailingStop ;; ret true
    else ret false
  else ret false.

(** [self.volume[0] > (self.vol_ma[0] * self.params.vol_multiplier)]. *)
Definition is_vol_spike (p : Params) (o : Obs) : bool :=
  match vol_ma o with
  | Some v => Qgtb (volume o) (v * vol_multiplier p)
  | None => false
  end.

(** Block B of the trade management. *)
Definition volume_reversal (p : Params) (o : Obs) : M unit :=
  if is_vol_spike p o then
    if (0 <? position_size o)%Z then
      if Qltb (dataclose o) (dataclose_prev o)
      then reverse_position p o VolumeSpikeBearish
      else ret tt
    else if (position_size o <? 0)%Z then
      if Qgtb (dataclose o) (dataclose_prev o)
      then reverse_position p o VolumeSpikeBullish
      else ret tt
    else ret tt
  else ret tt.

(** Section 4 of [next]. *)
Definition trade_management (p : Params) (o : Obs) : M unit :=
  if has_position o then
    update_extremes o ;;
    reversal_triggered <- trailing_reversal p o ;;
    if negb reversal_triggered then volume_reversal p o else ret tt
  else ret tt.

(** Section 3 of [next]. *)
Definition first_bar_entry (p : Params) (o : Obs) : M unit :=
  if negb (has_position o) then
    if Qgtb (dataclose o) (dataopen o) then
      log MFirstBarLong ;;
      buy (fixed_size p) ;;
      modify (set_highest_high (datahigh o))
    else
      log MFirstBarShort ;;
      sell (fixed_size p) ;;
      modify (set_lowest_low (datalow o))
  else ret tt.

Definition is_new_day (s : State) (o : Obs) : bool :=
  match current_day s with
  | Some d => negb (d =? dt_date o)%Z
  | None => true
  end.

Definition next (p : Params) (o : Obs) : M unit :=
  s <- get ;;
  (if is_new_day s o then
     modify (set_current_day (dt_date o)) ;;
     start_of_day_reset o
   else ret tt) ;;
  s <- get ;;
  if trading_halted s then ret tt
  else
    breach <- check_daily_loss_limit p o ;;
    if breach then ret tt
    else if time_geb (dt_time o) market_close then
      (if has_position o then log MMarketClose ;; close else ret tt)
    else if time_eqb (dt_time o) first_bar_close then
      first_bar_entry p o
    else trade_management p o.

(** One handler call, started with an empty trace. *)
Definition run_handler (c : M unit) (s : State)
  : result (State * list Action) :=
  match c s [] with
  | Ok (_, s', t) => Ok (s', t)
  | Raise e => Raise e
  end.

Definition step (p : Params) (s : State) (o : Obs)
  : result (State * list Action) :=
  run_handler (next p o) s.

End Strategy.

(** ** The calls the framework makes on the strategy, in order *)

Module Feed.
Import Strategy.

Inductive Event :=
| EvNotifyTrade (isclosed : bool) (pnlcomm : Q)
| EvNext (o : Obs).

Definition handle (p : Params) (s : State) (e : Event)
  : result (State * list Action) :=
  match e with
  | EvNotifyTrade isclosed pnlcomm =>
      run_handler (notify_trade isclosed pnlcomm) s
  | EvNext o => step p s o
  end.

(** The run over a whole stream: the final state and, for each event, the
    trace of the calls its handler made. *)
Fixpoint run (p : Params) (s : State) (evs : list Event)
  : result (State * list (list Action)) :=
  match evs with
  | [] => Ok (s, [])
  | e :: evs' =>
      match handle p s e with
      | Raise x => Raise x
      | Ok (s1, t) =>
          match run p s1 evs' with
          | Raise x => Raise x
          | Ok (s2, ts) => Ok (s2, t :: ts)
          end
      end
  end.

(** The bars of a stream, each with the position of its event. *)
Definition bar_at (evs : list Event) (i : nat) : option Obs :=
  match nth_error evs i with
  | Some (EvNext o) => Some o
  | _ => None
  end.

Definition timestamp_ltb (a b : Obs) : bool :=
  (dt_date a <? dt_date b)%Z ||
  ((dt_date a =? dt_date b)%Z && time_ltb (dt_time a) (dt_time b)).

(** Bars arrive with strictly increasing timestamps. *)
Definition increasing (evs : list Event) : Prop :=
  forall i j a b, (i < j)%nat ->
    bar_at evs i = Some a -> bar_at evs j = Some b ->
    timestamp_ltb a b = true.

(** The weaker order that the day logic needs: dates never go back. *)
Definition dates_ordered (evs : list Event) : Prop :=
  forall i j a b, (i < j)%nat ->
    bar_at evs i = Some a -> bar_at evs j = Some b ->
    (dt_date a <= dt_date b)%Z.

Definition signal_eqb (a b : Signal) : bool :=
  match a, b with
  | TrailingStop, TrailingStop
  | VolumeSpikeBearish, VolumeSpikeBearish
  | VolumeSpikeBullish, VolumeSpikeBullish => true
  | _, _ => false
  end.

Definition msg_eqb (m n : Msg) : bool :=
  match m, n with
  | MTradeClosed, MTradeClosed
  | MStartOfDay, MStartOfDay
  | MDailyLossHit, MDailyLossHit
  | MMarketClose, MMarketClose
  | MFirstBarLong, MFirstBarLong
  | MFirstBarShort, MFirstBarShort => true
  | MReversalLongShort a, MReversalLongShort b
  | MReversalShortLong a, MReversalShortLong b => signal_eqb a b
  | _, _ => false
  end.

(** [logged m t]: the handler called [self.log] with message [m]. *)
Definition logged (m : Msg) (t : list Action) : bool :=
  existsb (fun a => match a with
                    | ALog n => msg_eqb m n
                    | _ => false
                    end) t.

Definition is_order (a : Action) : bool :=
  match a with
  | ALog _ => false
  | _ => true
  end.

(** The orders of a trace: its [close], [buy] and [sell] calls. *)
Definition orders (t : list Action) : list Action := filter is_order t.

Definition is_open_order (a : Action) : bool :=
  match a with
  | ABuy _ | ASell _ => true
  | _ => false
  end.

(** The [buy] and [sell] calls of a trace. *)
Definition opening_orders (t : list Action) : list Action :=
  filter is_open_order t.

Definition is_entry (t : list Action) : bool :=
  logged MFirstBarLong t || logged MFirstBarShort t.

Definition is_reversal_msg (a : Action) : bool :=
  match a with
  | ALog (MReversalLongShort _) | ALog (MReversalShortLong _) => true
  | _ => false
  end.

(** Number of reversals in a trace. *)
Definition reversals (t : list Action) : nat :=
  length (filter is_reversal_msg t).

Definition trailing_fired (t : list Action) : bool :=
  logged (MReversalLongShort TrailingStop) t ||
  logged (MReversalShortLong TrailingStop) t.

Definition volume_fired (t : list Action) : bool :=
  logged (MReversalLongShort VolumeSpikeBearish) t ||
  logged (MReversalShortLong VolumeSpikeBullish) t.

(** The state after section 0 of [next] (the new-day logic), and what it
    logs. *)
Definition after_day_logic (s : State) (o : Obs) : State :=
  if is_new_day s o then
    mk_state (Some (dt_date o)) (Some (broker_value o))
             (highest_high s) (lowest_low s) false 0
  else s.

Definition day_trace (s : State) (o : Obs) : list Action :=
  if is_new_day s o then [ALog MStartOfDay] else [].

(** The daily-loss test of section 1, on the state it is evaluated in. *)
Definition breach (p : Params) (s : State) (o : Obs) : bool :=
  Qltb (total_daily_pnl p (after_day_logic s o) o) (- daily_loss_limit p).

(** The bar gets as far as section 4: not halted, no breach, before the
    forced exit and not the entry bar. *)
Definition reaches_management (p : Params) (s : State) (o : Obs) : bool :=
  negb (trading_halted (after_day_logic s o)) &&
  negb (breach p s o) &&
  negb (time_geb (dt_time o) market_close) &&
  negb (time_eqb (dt_time o) first_bar_close).

(** The trailing-stop conditions, on the extreme [x] they are tested
    with. *)
Definition long_stop_hit (p : Params) (x : Q) (o : Obs) : Prop :=
  exists a, atr o = Some a /\ dataclose o < x - a * trail_atr p.

Definition short_stop_hit (p : Params) (x : Q) (o : Obs) : Prop :=
  exists a, atr o = Some a /\ dataclose o > x + a * trail_atr p.

Definition long_stop_hitb (p : Params) (x : Q) (o : Obs) : bool :=
  match reversal_dist p o with
  | Some d => Qltb (dataclose o) (x - d)
  | None => false
  end.

Definition short_stop_hitb (p : Params) (x : Q) (o : Obs) : bool :=
  match reversal_dist p o with
  | Some d => Qgtb (dataclose o) (x + d)
  | None => false
  end.

(** The paths through [next] after the new-day logic: the state each one
    leaves and the calls it makes, from the state [s0] the day logic
    left. *)
Inductive Path (p : Params) (s : State) (o : Obs)
  : State -> list Action -> Prop :=
| PHalted :
    trading_halted (after_day_logic s o) = true ->
    Path p s o (after_day_logic s o) []
| PBreach :
    trading_halted (after_day_logic s o) = false ->
    breach p s o = true ->
    Path p s o (set_trading_halted true (after_day_logic s o))
         [ALog MDailyLossHit; AClose]
| PMarketClose :
    trading_halted (after_day_logic s o) = false ->
    breach p s o = false ->
    time_geb (dt_time o) market_close = true ->
    Path p s o (after_day_logic s o)
         (if has_position o then [ALog MMarketClose; AClose] else [])
| PEntrySkipped :
    trading_halted (after_day_logic s o) = false ->
    breach p s o = false ->
    time_geb (dt_time o) market_close = false ->
    time_eqb (dt_time o) first_bar_close = true ->
    position_size o <> 0%Z ->
    Path p s o (after_day_logic s o) []
| PEntryLong :
    trading_halted (after_day_logic s o) = false ->
    breach p s o = false ->
    time_geb (dt_time o) market_close = false ->
    time_eqb (dt_time o) first_bar_close = true ->
    position_size o = 0%Z ->
    Qgtb (dataclose o) (dataopen o) = true ->
    Path p s o (set_highest_high (datahigh o) (after_day_logic s o))
         [ALog MFirstBarLong; ABuy (fixed_size p)]
| PEntryShort :
    trading_halted (after_day_logic s o) = false ->
    breach p s o = false ->
    time_geb (dt_time o) market_close = false ->
    time_eqb (dt_time o) first_bar_close = true ->
    position_size o = 0%Z ->
    Qgtb (dataclose o) (dataopen o) = false ->
    Path p s o (set_lowest_low (datalow o) (after_day_logic s o))
         [ALog MFirstBarShort; ASell (fixed_size p)]
| PFlat :
    reaches_management p s o = true ->
    position_size o = 0%Z ->
    Path p s o (after_day_logic s o) []
| PLongTrail h :
    reaches_management p s o = true ->
    (0 < position_size o)%Z ->
    highest_high s = Some h ->
    long_stop_hitb p (py_max h (datahigh o)) o = true ->
    Path p s o
         (set_lowest_low (datalow o)
            (set_highest_high (py_max h (datahigh o)) (after_day_logic s o)))
         [ALog (MReversalLongShort TrailingStop); AClose;
          ASell (fixed_size p)]
| PLongVolume h :
    reaches_management p s o = true ->
    (0 < position_size o)%Z ->
    highest_high s = Some h ->
    long_stop_hitb p (py_max h (datahigh o)) o = false ->
    is_vol_spike p o = true ->
    Qltb (dataclose o) (dataclose_prev o) = true ->
    Path p s o
         (set_lowest_low (datalow o)
            (set_highest_high (py_max h (datahigh o)) (after_day_logic s o)))
         [ALog (MReversalLongShort VolumeSpikeBearish); AClose;
          ASell (fixed_size p)]
| PLongHold h :
    reaches_management p s o = true ->
    (0 < position_size o)%Z ->
    highest_high s = Some h ->
    long_stop_hitb p (py_max h (datahigh o)) o = false ->
    is_vol_spike p o && Qltb (dataclose o) (dataclose_prev o) = false ->
    Path p s o
         (set_highest_high (py_max h (datahigh o)) (after_day_logic s o)) []
| PShortTrail l :
    reaches_management p s o = true ->
    (position_size o < 0)%Z ->
    lowest_low s = Some l ->
    short_stop_hitb p (py_min l (datalow o)) o = true ->
    Path p s o
         (set_highest_high (datahigh o)
            (set_lowest_low (py_min l (datalow o)) (after_day_logic s o)))
         [ALog (MReversalShortLong TrailingStop); AClose;
          ABuy (fixed_size p)]
| PShortVolume l :
    reaches_management p s o = true ->
    (position_size o < 0)%Z ->
    lowest_low s = Some l ->
    short_stop_hitb p (py_min l (datalow o)) o = false ->
    is_vol_spike p o = true ->
    Qgtb (dataclose o) (dataclose_prev o) = true ->
    Path p s o
         (set_highest_high (datahigh o)
            (set_lowest_low (py_min l (datalow o)) (after_day_logic s o)))
         [ALog (MReversalShortLong VolumeSpikeBullish); AClose;
          ABuy (fixed_size p)]
| PShortHold l :
    reaches_management p s o = true ->
    (position_size o < 0)%Z ->
    lowest_low s = Some l ->
    short_stop_hitb p (py_min l (datalow o)) o = false ->
    is_vol_spike p o && Qgtb (dataclose o) (dataclose_prev o) = false ->
    Path p s o
         (set_lowest_low (py_min l (datalow o)) (after_day_logic s o)) [].




Definition set_indicators (a v : option Q) (o : Obs) : Obs :=
  mk_obs (dt_date o) (dt_time o) (dataopen o) (datahigh o) (datalow o)
         (dataclose o) (dataclose_prev o) (volume o) a v
         (position_size o) (position_price o) (broker_value o).

(** The net results of the closed trades a stream notifies, in order. *)
Definition closed_pnls (evs : list Event) : list Q :=
  flat_map (fun e => match e with
                     | EvNotifyTrade true pnlcomm => [pnlcomm]
                     | _ => []
                     end) evs.

(** Modelled from the spec: the bar dispatch of the backtesting framework,
    which is outside the sources.  Both indicators are undefined during
    the initial warm-up window, and an affected bar is handled by skipping
    the trading decisions: the framework calls [next] only on a bar for
    which every indicator declared in [__init__] has a value, and on an
    earlier bar it calls [prenext], which the class does not override and
    which therefore does nothing. *)
Definition indicators_ready (o : Obs) : bool :=
  match atr o, vol_ma o with
  | Some _, Some _ => true
  | _, _ => false
  end.

Definition prenext : M unit := ret tt.

Definition on_bar (p : Params) (s : State) (o : Obs)
  : result (State * list Action) :=
  if indicators_ready o then step p s o else run_handler prenext s.

(** The stream as the framework delivers it. *)
Definition deliver (p : Params) (s : State) (e : Event)
  : result (State * list Action) :=
  match e with
  | EvNotifyTrade isclosed pnlcomm =>
      run_handler (notify_trade isclosed pnlcomm) s
  | EvNext o => on_bar p s o
  end.

Fixpoint run_feed (p : Params) (s : State) (evs : list Event)
  : result (State * list (list Action)) :=
  match evs with
  | [] => Ok (s, [])
  | e :: evs' =>
      match deliver p s e with
      | Raise x => Raise x
      | Ok (s1, t) =>
          match run_feed p s1 evs' with
          | Raise x => Raise x
          | Ok (s2, ts) => Ok (s2, t :: ts)
          end
      end
  end.

End Feed.

(** ** Monte_Carlo_Analysis/monte_carlo.py *)

Module MonteCarlo.

(** A closed trade as the analysis reads it: [close_date] is
    [bt.num2date(trade.dtclose).date()], [pnlcomm] its net result. *)
Record Trade := mk_trade { close_date : Z; pnlcomm : Q }.

(** A Python [dict] with date keys: the items in insertion order. *)
Definition dict := list (Z * Q).

Fixpoint dict_mem (k : Z) (d : dict) : bool :=
  match d with
  | [] => false
  | (k', _) :: d' => (k =? k')%Z || dict_mem k d'
  end.

(** [d[k]]: [KeyError] on a missing key. *)
Fixpoint dict_get (k : Z) (d : dict) : result Q :=
  match d with
  | [] => Raise KeyError
  | (k', v) :: d' => if (k =? k')%Z then Ok v else dict_get k d'
  end.

(** The value a day holds, [0.0] when it has no entry yet. *)
Definition held (k : Z) (d : dict) : Q :=
  match dict_get k d with
  | Ok v => v
  | Raise _ => 0
  end.

(** [d[k] = v]: in place for a known key, appended for a new one. *)
Fixpoint dict_set (k : Z) (v : Q) (d : dict) : dict :=
  match d with
  | [] => [(k, v)]
  | (k', v') :: d' =>
      if (k =? k')%Z then (k', v) :: d' else (k', v') :: dict_set k v d'
  end.

Definition dict_values (d : dict) : list Q := map snd d.
Definition dict_keys (d : dict) : list Z := map fst d.

(** The body of the loop over [trade_list]. *)
Definition add_trade (daily_pnls : dict) (trade : Trade) : result dict :=
  let date_key := close_date trade in
  let pnl := pnlcomm trade in
  let daily_pnls :=
    if negb (dict_mem date_key daily_pnls)
    then dict_set date_key 0 daily_pnls
    else daily_pnls in
  match dict_get date_key daily_pnls with
  | Ok v => Ok (dict_set date_key (v + pnl) daily_pnls)
  | Raise e => Raise e
  end.

Fixpoint add_trades (daily_pnls : dict) (trade_list : list Trade)
  : result dict :=
  match trade_list with
  | [] => Ok daily_pnls
  | trade :: rest =>
      match add_trade daily_pnls trade with
      | Ok d => add_trades d rest
      | Raise e => Raise e
      end
  end.

Definition daily_pnls_of (trade_list : list Trade) : result dict :=
  add_trades [] trade_list.

(** [l[i]] for a Python list: negative indices count from the end. *)
Definition py_index {A} (l : list A) (i : Z) : result A :=
  let n := Z.of_nat (length l) in
  let j := if (i <? 0)%Z then (i + n)%Z else i in
  if (0 <=? j)%Z && (j <? n)%Z then
    match nth_error l (Z.to_nat j) with
    | Some x => Ok x
    | None => Raise IndexError
    end
  else Raise IndexError.

Definition SIMULATIONS : Z := 1000.
Definition STARTING_EQUITY : Q := 5000.

(** The variables of one trial's walk. *)
Record Walk := mk_walk { equity : list Q; peak : Q; drawdown : Q }.

(** The body of the loop over [daily_seq]; a float division by zero
    raises. *)
Definition walk_step (w : Walk) (pnl : Q) : result Walk :=
  match py_index (equity w) (-1) with
  | Raise e => Raise e
  | Ok last_val =>
      let new_val := last_val + pnl in
      let equity' := equity w ++ [new_val] in
      let peak' := if Qgtb new_val (peak w) then new_val else peak w in
      if Qeq_bool peak' 0 then Raise ZeroDivisionError
      else
        let dd := (peak' - new_val) / peak' in
        let drawdown' := if Qgtb dd (drawdown w) then dd else drawdown w in
        Ok (mk_walk equity' peak' drawdown')
  end.

Fixpoint walk (w : Walk) (daily_seq : list Q) : result Walk :=
  match daily_seq with
  | [] => Ok w
  | pnl :: rest =>
      match walk_step w pnl with
      | Ok w' => walk w' rest
      | Raise e => Raise e
      end
  end.

(** The three result lists of the simulation. *)
Record Results := mk_results {
  final_equities : list Q;
  max_drawdowns : list Q;
  all_curves : list (list Q)
}.

Section WithRandom.

(** [random n] is the value of the [n]-th call of [random.random()]; the
    generator's state is the number of calls made so far. *)
Variable random : nat -> Q.

(** [random.choices(population, k=k)] without weights:
    [[population[floor(random() * n)] for i in range(k)]] with
    [n = len(population)]. *)
Fixpoint choices_loop (population : list Q) (n : Q) (k : nat) (calls : nat)
  : result (list Q) :=
  match k with
  | O => Ok []
  | S k' =>
      match py_index population (Qfloor (random calls * n)) with
      | Raise e => Raise e
      | Ok x =>
          match choices_loop population n k' (S calls) with
          | Raise e => Raise e
          | Ok xs => Ok (x :: xs)
          end
      end
  end.

Definition choices (population : list Q) (k : nat) (calls : nat)
  : result (list Q * nat) :=
  match choices_loop population
          (inject_Z (Z.of_nat (length population))) k calls with
  | Ok xs => Ok (xs, (calls + k)%nat)
  | Raise e => Raise e
  end.

(** One pass of the trial loop: the drawn sequence, the walk, and the
    three appends. *)
Definition trial (pnl_sequence : list Q) (starting_equity : Q)
    (acc : Results) (calls : nat) : result (Results * nat) :=
  let days := length pnl_sequence in
  match choices pnl_sequence days calls with
  | Raise e => Raise e
  | Ok (daily_seq, calls') =>
      match walk (mk_walk [starting_equity] starting_equity 0) daily_seq with
      | Raise e => Raise e
      | Ok w =>
          match py_index (equity w) (-1) with
          | Raise e => Raise e
          | Ok final =>
              Ok (mk_results (final_equities acc ++ [final])
                             (max_drawdowns acc ++ [drawdown w * 100])
                             (all_curves acc ++ [equity w]),
                  calls')
          end
      end
  end.

Fixpoint trials (n : nat) (pnl_sequence : list Q) (starting_equity : Q)
    (acc : Results) (calls : nat) : result (Results * nat) :=
  match n with
  | O => Ok (acc, calls)
  | S n' =>
      match trial pnl_sequence starting_equity acc calls with
      | Raise e => Raise e
      | Ok (acc', calls') =>
          trials n' pnl_sequence starting_equity acc' calls'
      end
  end.

(** [for i in range(simulations)] over the three empty lists. *)
Definition simulate (pnl_sequence : list Q) (simulations : Z)
    (starting_equity : Q) : result Results :=
  match trials (Z.to_nat simulations) pnl_sequence starting_equity
          (mk_results [] [] []) 0 with
  | Ok (r, _) => Ok r
  | Raise e => Raise e
  end.

(** The script from the trade list to the end of the trial loop. *)
Definition main_analysis (trade_list : list Trade) : result Results :=
  match daily_pnls_of trade_list with
  | Raise e => Raise e
  | Ok daily_pnls =>
      simulate (dict_values daily_pnls) SIMULATIONS STARTING_EQUITY
  end.


End WithRandom.

(** *** The drawdown as the specification words it *)

(** Running peak of a path: the largest value so far. *)
Fixpoint running_peaks (pk : Q) (path : list Q) : list Q :=
  match path with
  | [] => []
  | e :: rest =>
      let pk' := if Qgtb e pk then e else pk in
      pk' :: running_peaks pk' rest
  end.

(** [(running_peak - equity) / running_peak] at every point of a path. *)
Definition drawdown_fractions (path : list Q) : list Q :=
  match path with
  | [] => []
  | e0 :: _ =>
      map (fun '(pk, e) => (pk - e) / pk)
          (combine (running_peaks e0 path) path)
  end.

Definition Qmax_list (l : list Q) : Q :=
  match l with
  | [] => 0
  | x :: rest => fold_left (fun m y => if Qgtb y m then y else m) rest x
  end.

(** The maximum over the path of the drawdown fraction. *)
Definition spec_max_drawdown (path : list Q) : Q :=
  Qmax_list (drawdown_fractions path).

Fixpoint non_decreasing (path : list Q) : Prop :=
  match path with
  | [] => True
  | e :: rest =>
      match rest with
      | [] => True
      | e' :: _ => e <= e' /\ non_decreasing rest
      end
  end.

(** *** Closed forms of one trial *)

(** The larger of the running value [m] and [y], as the walk updates its
    peak and its drawdown. *)
Definition keep_max (m y : Q) : Q := if Qgtb y m then y else m.

(** The equity values a walk appends, from the last value [x]. *)
Fixpoint sums_from (x : Q) (l : list Q) : list Q :=
  match l with
  | [] => []
  | p :: rest => (x + p) :: sums_from (x + p) rest
  end.

Definition path_of (starting_equity : Q) (daily_seq : list Q) : list Q :=
  starting_equity :: sums_from starting_equity daily_seq.

(** The drawdown fraction of each step of a walk, from peak [pk] and last
    value [x]. *)
Fixpoint dd_list (pk x : Q) (l : list Q) : list Q :=
  match l with
  | [] => []
  | p :: rest =>
      let v := x + p in
      let pk' := keep_max pk v in
      ((pk' - v) / pk') :: dd_list pk' v rest
  end.

Definition dd_of (starting_equity : Q) (daily_seq : list Q) : Q :=
  fold_left keep_max (dd_list starting_equity starting_equity daily_seq) 0.

(** The index the [i]-th draw of a trial picks, and the drawn values. *)
Definition draw_index (random : nat -> Q) (n : nat) (calls i : nat) : Z :=
  Qfloor (random (calls + i)%nat * inject_Z (Z.of_nat n)).

Definition draws (random : nat -> Q) (pnl_sequence : list Q) (calls : nat)
  : list Q :=
  map (fun i => nth (Z.to_nat (draw_index random (length pnl_sequence)
                                 calls i)) pnl_sequence 0)
      (seq 0 (length pnl_sequence)).

(** The values of trial number [k], when the first trial starts after
    [calls] calls of the generator. *)
Definition trial_draws (random : nat -> Q) (pnl_sequence : list Q)
    (calls k : nat) : list Q :=
  draws random pnl_sequence (calls + k * length pnl_sequence)%nat.

Definition Qsum (l : list Q) : Q := fold_left Qplus l 0.

(** The keys of a list in the order of their first occurrence. *)
Fixpoint first_seen (seen : list Z) (l : list Z) : list Z :=
  match l with
  | [] => []
  | k :: rest =>
      if existsb (Z.eqb k) seen then first_seen seen rest
      else k :: first_seen (seen ++ [k]) rest
  end.

(** The net results of the trades closed on day [d], in trade order. *)
Definition pnls_on (d : Z) (trade_list : list Trade) : list Q :=
  map pnlcomm (filter (fun t => (close_date t =? d)%Z) trade_list).

(** [sum(1 for x in final_equities if x < 2500) / SIMULATIONS * 100]. *)
Definition risk_of_ruin (final_equities : list Q) : Q :=
  inject_Z (Z.of_nat (length (filter (fun x => Qltb x 2500) final_equities)))
  / inject_Z SIMULATIONS * 100.

End MonteCarlo.

(** ** The walk of a trial in double precision *)

(** The body of the trial loop once more, on binary64 floats with their
    rounded operations, for what exact rationals cannot show. *)
Module DoubleWalk.

Record Walk := mk_walk { equity : list float; peak : float; drawdown : float }.

Definition walk_step (w : Walk) (pnl : float) : result Walk :=
  match MonteCarlo.py_index (equity w) (-1) with
  | Raise e => Raise e
  | Ok last_val =>
      let new_val := PrimFloat.add last_val pnl in
      let equity' := equity w ++ [new_val] in
      let peak' := if PrimFloat.ltb (peak w) new_val then new_val
                   else peak w in
      if PrimFloat.eqb peak' PrimFloat.zero then Raise ZeroDivisionError
      else
        let dd := PrimFloat.div (PrimFloat.sub peak' new_val) peak' in
        let drawdown' := if PrimFloat.ltb (drawdown w) dd then dd
                         else drawdown w in
        Ok (mk_walk equity' peak' drawdown')
  end.

Fixpoint walk (w : Walk) (daily_seq : list float) : result Walk :=
  match daily_seq with
  | [] => Ok w
  | pnl :: rest =>
      match walk_step w pnl with
      | Ok w' => walk w' rest
      | Raise e => Raise e
      end
  end.


End DoubleWalk.

(** ** Sample bars and states *)

Module Examples.
Import Strategy Feed.

Definition day1 : Z := 739000.

(** Long one lot since the entry, highest high 5010. *)
Definition s_long : State :=
  mk_state (Some day1) (Some 5000) (Some 5010) None false 0.

(** Short one lot, lowest low 4995. *)
Definition s_short : State :=
  mk_state (Some day1) (Some 5000) None (Some 4995) false 0.

Definition s_halted : State :=
  mk_state (Some day1) (Some 5000) (Some 5010) None true (-210).

Definition bar (t : time) (o h l c prev vol : Q) (size : Z) (price : Q)
  : Obs :=
  mk_obs day1 t o h l c prev vol (Some 2) (Some 100) size price 5000.

(** The 09:35 bar, flat, closing above its open. *)
Definition bar_entry : Obs :=
  bar (time_hm 9 35) 5000 5010 4995 5005 5000 100 0 0.

(** The same bar while the indicators have no value yet. *)
Definition bar_warmup : Obs := set_indicators None None bar_entry.

Definition bar_flat_1000 : Obs :=
  bar (time_hm 10 0) 5005 5012 5001 5008 5005 120 0 0.

Definition bar_hold : Obs :=
  bar (time_hm 9 40) 5005 5012 5001 5008 5005 120 1 5005.

(** Long, close 5000 below 5013 - 2 * 3. *)
Definition bar_stop : Obs :=
  bar (time_hm 10 0) 5008 5013 4998 5000 5008 150 1 5005.

(** Short, close 5004 above 4994 + 2 * 3. *)
Definition bar_stop_short : Obs :=
  bar (time_hm 10 0) 4997 5005 4994 5004 4997 150 (-1) 5000.

(** Long, volume 400 above 100 * 3, close below the previous close. *)
Definition bar_volume : Obs :=
  bar (time_hm 10 5) 5010 5012 5008 5009 5010 400 1 5005.

(** Long at 15:45, new high 5020, close 4990 far below the stop. *)
Definition bar_close_window : Obs :=
  bar (time_hm 15 45) 5015 5020 4988 4990 5015 400 1 5005.

(** Long from 5005, close 4900: 210 dollars under water. *)
Definition bar_loss : Obs :=
  bar (time_hm 10 0) 4950 4955 4895 4900 4950 150 1 5005.

Definition bar_after_loss : Obs :=
  bar (time_hm 10 5) 4900 4990 4890 4980 4900 500 1 5005.


(** Two bars of the warm-up, the second one the 09:35 bar, then the first
    bar with both indicators. *)
Definition stream_warmup : list Event :=
  [EvNext (set_indicators None None bar_flat_1000); EvNext bar_warmup;
   EvNext bar_flat_1000].

Definition stream_entry : list Event :=
  [EvNext bar_entry; EvNext bar_hold].

Definition stream_loss : list Event :=
  [EvNext bar_loss; EvNotifyTrade true (-210); EvNext bar_after_loss].

(** Long according to the broker, but no high was ever tracked. *)
Definition s_untracked : State :=
  mk_state (Some day1) (Some 5000) None None false 0.

(** Halted the day before [day1], with that day's loss still booked. *)
Definition s_halted_yesterday : State :=
  mk_state (Some (day1 - 1)%Z) (Some 5000) (Some 5010) None true (-260).

(** The 09:35 bar while one lot is still held. *)
Definition bar_entry_held : Obs :=
  bar (time_hm 9 35) 5008 5030 4990 4995 5008 400 1 5005.

(** Long from 5005, close 4905: exactly 200 dollars under water; the ATR
    of 50 keeps the stop away. *)
Definition bar_at_limit : Obs :=
  set_indicators (Some 50) (Some 100)
    (bar (time_hm 10 0) 4950 4955 4900 4905 4950 150 1 5005).

Definition stream_trades : list Event :=
  [EvNotifyTrade true (-40); EvNext bar_hold; EvNotifyTrade false 999;
   EvNotifyTrade true 15].

End Examples.

Module MonteCarloExamples.
Import MonteCarlo.

(** A generator cycling through 0, 1/7, ..., 6/7. *)
Definition sample_random (n : nat) : Q := Z.of_nat (n mod 7) # 7.

(** Twenty daily results. *)
Definition sample_pnl : list Q :=
  [120; -80; 45; 0; -200; 310; 15; -35; 60; -10;
   95; -150; 20; 75; -5; 180; -60; 30; -90; 140].

Definition rising_pnl : list Q := [100; 100; 100].

Definition sample_trades : list Trade :=
  [mk_trade 739000 40; mk_trade 739000 (-15); mk_trade 739001 25;
   mk_trade 739003 (-60); mk_trade 739003 10].

(** Every day a loss of more than 2500. *)
Definition ruinous_pnl : list Q := [-3000; -2600; -4000].

(** A generator that agrees with [sample_random] on the calls 40 to 59
    only. *)
Definition other_random (n : nat) : Q :=
  if (40 <=? n)%nat && (n <? 60)%nat then sample_random n else 1 # 2.

#[local] Set Warnings "-inexact-float".


End MonteCarloExamples.

(** * Properties *)

Lemma Qltb_iff x y : Qltb x y = true <-> x < y.
Proof.
  unfold Qltb. rewrite negb_true_iff.
  split; intro H.
  - apply Qnot_le_lt. intro L. apply Qle_bool_iff in L. congruence.
  - destruct (Qle_bool y x) eqn:E; [|reflexivity].
    apply Qle_bool_iff in E. exfalso. apply (Qlt_not_le _ _ H E).
Qed.

Lemma Qltb_false_iff x y : Qltb x y = false <-> y <= x.
Proof.
  unfold Qltb. rewrite negb_false_iff. apply Qle_bool_iff.
Qed.

Module StrategyFacts.
Import Strategy Feed.

Ltac split_ifs :=
  repeat match goal with
         | |- context [if ?c then _ else _] => destruct c eqn:?
         | |- context [match ?c with Some _ => _ | None => _ end] =>
             destruct c eqn:?
         end.

(** [step] section by section. *)
Lemma step_unfold (p : Params) (s : State) (o : Obs) :
  step p s o =
  let s0 := after_day_logic s o in
  let t0 := day_trace s o in
  if trading_halted s0 then Ok (s0, t0)
  else if breach p s o then
    Ok (set_trading_halted true s0, t0 ++ [ALog MDailyLossHit] ++ [AClose])
  else if time_geb (dt_time o) market_close then
    Ok (s0, if has_position o then (t0 ++ [ALog MMarketClose]) ++ [AClose]
            else t0)
  else if time_eqb (dt_time o) first_bar_close then
    match first_bar_entry p o s0 t0 with
    | Ok (_, s', t) => Ok (s', t)
    | Raise e => Raise e
    end
  else
    match trade_management p o s0 t0 with
    | Ok (_, s', t) => Ok (s', t)
    | Raise e => Raise e
    end.
Proof.
  unfold breach, after_day_logic, day_trace.
  cbv [step run_handler next check_daily_loss_limit start_of_day_reset
       modify log close emit get put ret bind].
  destruct (is_new_day s o) eqn:Hd; cbn [trading_halted app].
  - unfold set_daily_realized_pnl, set_trading_halted, set_start_day_value,
      set_current_day; cbn [trading_halted current_day highest_high
      lowest_low daily_realized_pnl start_day_value].
    unfold total_daily_pnl at 1. cbn [daily_realized_pnl].
    unfold total_daily_pnl.  cbn [daily_realized_pnl].
    split_ifs; reflexivity.
  - destruct (trading_halted s) eqn:Hh; [reflexivity|].
    split_ifs; try reflexivity.
Qed.

Lemma time_eqb_eq (a b : time) : time_eqb a b = true <-> a = b.
Proof.
  unfold time_eqb. destruct a, b; cbn.
  rewrite !andb_true_iff, !Z.eqb_eq.
  split; [intros [[[-> ->] ->] ->]; reflexivity | intro H; inversion H; auto].
Qed.

Lemma time_ltb_irrefl (a : time) : time_ltb a a = false.
Proof. unfold time_ltb. rewrite !Z.ltb_irrefl. reflexivity. Qed.

Lemma first_bar_close_is_0935 : first_bar_close = time_hm 9 35.
Proof. reflexivity. Qed.

Lemma first_bar_entry_unfold (p : Params) (o : Obs) (s0 : State)
    (t0 : list Action) :
  first_bar_entry p o s0 t0 =
  if has_position o then Ok (tt, s0, t0)
  else if Qgtb (dataclose o) (dataopen o) then
    Ok (tt, set_highest_high (datahigh o) s0,
        t0 ++ [ALog MFirstBarLong; ABuy (fixed_size p)])
  else
    Ok (tt, set_lowest_low (datalow o) s0,
        t0 ++ [ALog MFirstBarShort; ASell (fixed_size p)]).
Proof.
  cbv [first_bar_entry modify log buy sell emit get put ret bind].
  destruct (has_position o); cbn [negb]; [reflexivity|].
  destruct (Qgtb (dataclose o) (dataopen o));
    rewrite <- app_assoc; reflexivity.
Qed.

(** Every path through section 4, with the extreme [x] that the stops are
    tested with. *)
Lemma trade_management_long (p : Params) (o : Obs) (s0 : State)
    (t0 : list Action) (h : Q) :
  (0 < position_size o)%Z -> highest_high s0 = Some h ->
  let x := py_max h (datahigh o) in
  let s1 := set_highest_high x s0 in
  trade_management p o s0 t0 =
  if match reversal_dist p o with
     | Some d => Qltb (dataclose o) (x - d)
     | None => false
     end
  then Ok (tt, set_lowest_low (datalow o) s1,
           t0 ++ [ALog (MReversalLongShort TrailingStop); AClose;
                  ASell (fixed_size p)])
  else if is_vol_spike p o && Qltb (dataclose o) (dataclose_prev o)
  then Ok (tt, set_lowest_low (datalow o) s1,
           t0 ++ [ALog (MReversalLongShort VolumeSpikeBearish); AClose;
                  ASell (fixed_size p)])
  else Ok (tt, s1, t0).
Proof.
  intros Hpos Hh x s1. subst x s1.
  assert (Hp : (0 <? position_size o)%Z = true) by (apply Z.ltb_lt; lia).
  assert (Hn : has_position o = true).
  { unfold has_position. apply negb_true_iff, Z.eqb_neq. lia. }
  cbv [trade_management volume_reversal trailing_reversal update_extremes
       reverse_position trail_long_hit lift
       modify log close buy sell emit get put ret raise bind].
  rewrite Hn, Hp, Hh. cbn [highest_high set_highest_high].
  destruct (reversal_dist p o) as [d|].
  - destruct (Qltb (dataclose o) (py_max h (datahigh o) - d)); cbn [negb].
    + rewrite <- !app_assoc. reflexivity.
    + destruct (is_vol_spike p o); cbn [andb]; [|reflexivity].
      destruct (Qltb (dataclose o) (dataclose_prev o)); [|reflexivity].
      rewrite <- !app_assoc. reflexivity.
  - cbn [negb]. destruct (is_vol_spike p o); cbn [andb]; [|reflexivity].
    destruct (Qltb (dataclose o) (dataclose_prev o)); [|reflexivity].
    rewrite <- !app_assoc. reflexivity.
Qed.

Lemma trade_management_short (p : Params) (o : Obs) (s0 : State)
    (t0 : list Action) (l : Q) :
  (position_size o < 0)%Z -> lowest_low s0 = Some l ->
  let x := py_min l (datalow o) in
  let s1 := set_lowest_low x s0 in
  trade_management p o s0 t0 =
  if match reversal_dist p o with
     | Some d => Qgtb (dataclose o) (x + d)
     | None => false
     end
  then Ok (tt, set_highest_high (datahigh o) s1,
           t0 ++ [ALog (MReversalShortLong TrailingStop); AClose;
                  ABuy (fixed_size p)])
  else if is_vol_spike p o && Qgtb (dataclose o) (dataclose_prev o)
  then Ok (tt, set_highest_high (datahigh o) s1,
           t0 ++ [ALog (MReversalShortLong VolumeSpikeBullish); AClose;
                  ABuy (fixed_size p)])
  else Ok (tt, s1, t0).
Proof.
  intros Hpos Hl x s1. subst x s1.
  assert (Hp : (0 <? position_size o)%Z = false) by (apply Z.ltb_ge; lia).
  assert (Hq : (position_size o <? 0)%Z = true) by (apply Z.ltb_lt; lia).
  assert (Hn : has_position o = true).
  { unfold has_position. apply negb_true_iff, Z.eqb_neq. lia. }
  cbv [trade_management volume_reversal trailing_reversal update_extremes
       reverse_position trail_short_hit lift
       modify log close buy sell emit get put ret raise bind].
  rewrite Hn, Hp, Hq, Hl. cbn [lowest_low set_lowest_low].
  destruct (reversal_dist p o) as [d|].
  - destruct (Qgtb (dataclose o) (py_min l (datalow o) + d)); cbn [negb].
    + rewrite <- !app_assoc. reflexivity.
    + destruct (is_vol_spike p o); cbn [andb]; [|reflexivity].
      destruct (Qgtb (dataclose o) (dataclose_prev o)); [|reflexivity].
      rewrite <- !app_assoc. reflexivity.
  - cbn [negb]. destruct (is_vol_spike p o); cbn [andb]; [|reflexivity].
    destruct (Qgtb (dataclose o) (dataclose_prev o)); [|reflexivity].
    rewrite <- !app_assoc. reflexivity.
Qed.

Lemma trade_management_flat (p : Params) (o : Obs) (s0 : State)
    (t0 : list Action) :
  position_size o = 0%Z -> trade_management p o s0 t0 = Ok (tt, s0, t0).
Proof.
  intro H. unfold trade_management, has_position. rewrite H. reflexivity.
Qed.

Lemma trade_management_long_none (p : Params) (o : Obs) (s0 : State)
    (t0 : list Action) :
  (0 < position_size o)%Z -> highest_high s0 = None ->
  trade_management p o s0 t0 = Raise TypeError.
Proof.
  intros Hpos Hh.
  assert (Hp : (0 <? position_size o)%Z = true) by (apply Z.ltb_lt; lia).
  assert (Hn : has_position o = true).
  { unfold has_position. apply negb_true_iff, Z.eqb_neq. lia. }
  cbv [trade_management update_extremes get put ret raise bind].
  rewrite Hn, Hp, Hh. reflexivity.
Qed.

Lemma trade_management_short_none (p : Params) (o : Obs) (s0 : State)
    (t0 : list Action) :
  (position_size o < 0)%Z -> lowest_low s0 = None ->
  trade_management p o s0 t0 = Raise TypeError.
Proof.
  intros Hpos Hl.
  assert (Hp : (0 <? position_size o)%Z = false) by (apply Z.ltb_ge; lia).
  assert (Hq : (position_size o <? 0)%Z = true) by (apply Z.ltb_lt; lia).
  assert (Hn : has_position o = true).
  { unfold has_position. apply negb_true_iff, Z.eqb_neq. lia. }
  cbv [trade_management update_extremes get put ret raise bind].
  rewrite Hn, Hp, Hq, Hl. reflexivity.
Qed.

Lemma after_day_logic_extremes (s : State) (o : Obs) :
  highest_high (after_day_logic s o) = highest_high s /\
  lowest_low (after_day_logic s o) = lowest_low s.
Proof. unfold after_day_logic. destruct (is_new_day s o); auto. Qed.

(** Every successful [step] follows one of the paths, after what the day
    logic logged. *)
Lemma step_inv (p : Params) (s : State) (o : Obs) (s' : State)
    (t : list Action) :
  step p s o = Ok (s', t) ->
  exists body, t = day_trace s o ++ body /\ Path p s o s' body.
Proof.
  rewrite step_unfold. cbv zeta.
  destruct (after_day_logic_extremes s o) as [Ehh Ell].
  destruct (trading_halted (after_day_logic s o)) eqn:Hh.
  { intro H; inversion H; subst. exists []. rewrite app_nil_r.
    split; [reflexivity | now constructor]. }
  destruct (breach p s o) eqn:Hb.
  { intro H; inversion H; subst. eexists; split; [reflexivity|].
    now constructor. }
  destruct (time_geb (dt_time o) market_close) eqn:Hc.
  { intro H; inversion H; subst.
    exists (if has_position o then [ALog MMarketClose; AClose] else []).
    split; [|now constructor].
    destruct (has_position o); [rewrite <- app_assoc | rewrite app_nil_r];
      reflexivity. }
  destruct (time_eqb (dt_time o) first_bar_close) eqn:He.
  { rewrite first_bar_entry_unfold. unfold has_position.
    destruct (position_size o =? 0)%Z eqn:Hz; cbn [negb].
    - apply Z.eqb_eq in Hz.
      destruct (Qgtb (dataclose o) (dataopen o)) eqn:Hg;
        intro H; inversion H; subst; eexists; (split; [reflexivity|]).
      + now apply PEntryLong.
      + now apply PEntryShort.
    - apply Z.eqb_neq in Hz. intro H; inversion H; subst.
      exists []. rewrite app_nil_r. split; [reflexivity|].
      now apply PEntrySkipped. }
  assert (Hm : reaches_management p s o = true).
  { unfold reaches_management. rewrite Hh, Hb, Hc, He. reflexivity. }
  destruct (Z.lt_trichotomy (position_size o) 0) as [Hneg | [Hz | Hpos]].
  - destruct (lowest_low s) as [l|] eqn:Hl.
    + rewrite (trade_management_short p o _ _ l Hneg) by congruence.
      cbv zeta. fold (short_stop_hitb p (py_min l (datalow o)) o).
      destruct (short_stop_hitb p (py_min l (datalow o)) o) eqn:Ht.
      { intro H; inversion H; subst. eexists; split; [reflexivity|].
        now apply PShortTrail. }
      destruct (is_vol_spike p o && Qgtb (dataclose o) (dataclose_prev o))
        eqn:Hv; intro H; inversion H; subst.
      * apply andb_true_iff in Hv. destruct Hv.
        eexists; split; [reflexivity|]. now apply PShortVolume.
      * exists []. rewrite app_nil_r. split; [reflexivity|].
        now apply PShortHold.
    + rewrite trade_management_short_none by congruence. discriminate.
  - rewrite trade_management_flat by assumption.
    intro H; inversion H; subst. exists []. rewrite app_nil_r.
    split; [reflexivity | now apply PFlat].
  - destruct (highest_high s) as [h|] eqn:Hhh.
    + rewrite (trade_management_long p o _ _ h Hpos) by congruence.
      cbv zeta. fold (long_stop_hitb p (py_max h (datahigh o)) o).
      destruct (long_stop_hitb p (py_max h (datahigh o)) o) eqn:Ht.
      { intro H; inversion H; subst. eexists; split; [reflexivity|].
        now apply PLongTrail. }
      destruct (is_vol_spike p o && Qltb (dataclose o) (dataclose_prev o))
        eqn:Hv; intro H; inversion H; subst.
      * apply andb_true_iff in Hv. destruct Hv.
        eexists; split; [reflexivity|]. now apply PLongVolume.
      * exists []. rewrite app_nil_r. split; [reflexivity|].
        now apply PLongHold.
    + rewrite trade_management_long_none by congruence. discriminate.
Qed.

Lemma step_of_path (p : Params) (s : State) (o : Obs) (s' : State)
    (body : list Action) :
  Path p s o s' body -> step p s o = Ok (s', day_trace s o ++ body).
Proof.
  destruct (after_day_logic_extremes s o) as [Ehh Ell].
  intro HP. rewrite step_unfold. cbv zeta.
  inversion HP; subst;
    try match goal with
        | H : reaches_management _ _ _ = true |- _ =>
            unfold reaches_management in H;
            rewrite !andb_true_iff, !negb_true_iff in H;
            destruct H as [[[Hh Hb] Hc] He]
        end;
    repeat match goal with
           | H : ?c = _ |- context [if ?c then _ else _] => rewrite H
           end.
  - rewrite app_nil_r. reflexivity.
  - reflexivity.
  - destruct (has_position o);
      [rewrite <- app_assoc | rewrite app_nil_r]; reflexivity.
  - rewrite first_bar_entry_unfold. unfold has_position.
    apply Z.eqb_neq in H3. rewrite H3. cbn [negb].
    rewrite app_nil_r. reflexivity.
  - rewrite first_bar_entry_unfold. unfold has_position.
    rewrite H3, H4. reflexivity.
  - rewrite first_bar_entry_unfold. unfold has_position.
    rewrite H3, H4. reflexivity.
  - rewrite trade_management_flat by assumption. rewrite app_nil_r.
    reflexivity.
  - rewrite (trade_management_long p o _ _ h) by congruence.
    cbv zeta. fold (long_stop_hitb p (py_max h (datahigh o)) o).
    rewrite H2. reflexivity.
  - rewrite (trade_management_long p o _ _ h) by congruence.
    cbv zeta. fold (long_stop_hitb p (py_max h (datahigh o)) o).
    rewrite H2, H3, H4. reflexivity.
  - rewrite (trade_management_long p o _ _ h) by congruence.
    cbv zeta. fold (long_stop_hitb p (py_max h (datahigh o)) o).
    rewrite H2, H3. rewrite app_nil_r. reflexivity.
  - rewrite (trade_management_short p o _ _ l) by congruence.
    cbv zeta. fold (short_stop_hitb p (py_min l (datalow o)) o).
    rewrite H2. reflexivity.
  - rewrite (trade_management_short p o _ _ l) by congruence.
    cbv zeta. fold (short_stop_hitb p (py_min l (datalow o)) o).
    rewrite H2, H3, H4. reflexivity.
  - rewrite (trade_management_short p o _ _ l) by congruence.
    cbv zeta. fold (short_stop_hitb p (py_min l (datalow o)) o).
    rewrite H2, H3. rewrite app_nil_r. reflexivity.
Qed.

Lemma logged_app (m : Msg) (t u : list Action) :
  logged m (t ++ u) = logged m t || logged m u.
Proof. unfold logged. apply existsb_app. Qed.

Lemma is_entry_day (s : State) (o : Obs) (b : list Action) :
  is_entry (day_trace s o ++ b) = is_entry b.
Proof.
  unfold is_entry, day_trace. destruct (is_new_day s o); reflexivity.
Qed.

Lemma trailing_fired_day (s : State) (o : Obs) (b : list Action) :
  trailing_fired (day_trace s o ++ b) = trailing_fired b.
Proof.
  unfold trailing_fired, day_trace. destruct (is_new_day s o); reflexivity.
Qed.

Lemma volume_fired_day (s : State) (o : Obs) (b : list Action) :
  volume_fired (day_trace s o ++ b) = volume_fired b.
Proof.
  unfold volume_fired, day_trace. destruct (is_new_day s o); reflexivity.
Qed.

Lemma reversals_day (s : State) (o : Obs) (b : list Action) :
  reversals (day_trace s o ++ b) = reversals b.
Proof.
  unfold reversals, day_trace. destruct (is_new_day s o); reflexivity.
Qed.

Lemma orders_day (s : State) (o : Obs) (b : list Action) :
  orders (day_trace s o ++ b) = orders b.
Proof.
  unfold orders, day_trace. destruct (is_new_day s o); reflexivity.
Qed.

Lemma opening_orders_day (s : State) (o : Obs) (b : list Action) :
  opening_orders (day_trace s o ++ b) = opening_orders b.
Proof.
  unfold opening_orders, day_trace. destruct (is_new_day s o); reflexivity.
Qed.

Lemma logged_loss_day (s : State) (o : Obs) (b : list Action) :
  logged MDailyLossHit (day_trace s o ++ b) = logged MDailyLossHit b.
Proof.
  unfold day_trace. destruct (is_new_day s o); reflexivity.
Qed.

(** The events of a successful run, one by one: the state each handler
    started from and the trace it left. *)
Lemma run_nth (p : Params) (evs : list Event) :
  forall s s' ts, run p s evs = Ok (s', ts) ->
  length ts = length evs /\
  forall i e, nth_error evs i = Some e ->
    exists si si', handle p si e = Ok (si', nth i ts []).
Proof.
  induction evs as [|e evs IH]; intros s s' ts H; cbn in H.
  - inversion H; subst. split; [reflexivity|].
    intros [|i] e He; discriminate.
  - destruct (handle p s e) as [[s1 t]|] eqn:Hh; [|discriminate].
    destruct (run p s1 evs) as [[s2 ts']|] eqn:Hr; [|discriminate].
    inversion H; subst. destruct (IH _ _ _ Hr) as [Hlen Hnth].
    split; [cbn; now rewrite Hlen|].
    intros [|i] e' He; cbn in He.
    + inversion He; subst. exists s, s1. exact Hh.
    + cbn. eauto.
Qed.

Lemma bar_at_nth (evs : list Event) (i : nat) (o : Obs) :
  bar_at evs i = Some o -> nth_error evs i = Some (EvNext o).
Proof.
  unfold bar_at. destruct (nth_error evs i) as [[| o']|]; try discriminate.
  now intros [= ->].
Qed.

(** C5. An entry (the first-bar branch logging and ordering) is made only
    on the bar stamped 09:35, only when not halted and flat; it buys when
    close > open and sells otherwise, one order of the fixed size, and sets
    the matching extreme to that bar's high or low.  A flat bar outside
    that phase neither buys nor sells, and over a stream with strictly increasing
    timestamps no day has two entries. *)
Theorem entry_only_on_entry_bar (p : Params) :
  (forall s o s' t,
      step p s o = Ok (s', t) -> is_entry t = true ->
      dt_time o = time_hm 9 35 /\
      position_size o = 0%Z /\
      trading_halted (after_day_logic s o) = false /\
      ((dataopen o < dataclose o /\
        logged MFirstBarLong t = true /\
        orders t = [ABuy (fixed_size p)] /\
        highest_high s' = Some (datahigh o))
       \/
       (dataclose o <= dataopen o /\
        logged MFirstBarShort t = true /\
        orders t = [ASell (fixed_size p)] /\
        lowest_low s' = Some (datalow o)))) /\
  (forall s o s' t,
      step p s o = Ok (s', t) -> position_size o = 0%Z ->
      dt_time o <> time_hm 9 35 ->
      is_entry t = false /\ opening_orders t = []) /\
  (forall s evs s' ts i j a b,
      run p s evs = Ok (s', ts) -> increasing evs -> (i < j)%nat ->
      bar_at evs i = Some a -> bar_at evs j = Some b ->
      dt_date a = dt_date b ->
      is_entry (nth i ts []) = true -> is_entry (nth j ts []) = false).
Proof.
  assert (A : forall s o s' t,
      step p s o = Ok (s', t) -> is_entry t = true ->
      dt_time o = time_hm 9 35 /\
      position_size o = 0%Z /\
      trading_halted (after_day_logic s o) = false /\
      ((dataopen o < dataclose o /\
        logged MFirstBarLong t = true /\
        orders t = [ABuy (fixed_size p)] /\
        highest_high s' = Some (datahigh o))
       \/
       (dataclose o <= dataopen o /\
        logged MFirstBarShort t = true /\
        orders t = [ASell (fixed_size p)] /\
        lowest_low s' = Some (datalow o)))).
  { intros s o s' t Hs He.
    destruct (step_inv _ _ _ _ _ Hs) as (body & -> & HP).
    rewrite is_entry_day in He. rewrite !logged_app, orders_day.
    inversion HP; subst; try discriminate He;
      try (destruct (has_position o); discriminate He).
    - apply time_eqb_eq in H2. repeat split; auto.
      left. apply Qltb_iff in H4. repeat split; auto.
      cbn. apply orb_true_r.
    - apply time_eqb_eq in H2. repeat split; auto.
      right. apply Qltb_false_iff in H4. repeat split; auto.
      cbn. apply orb_true_r. }
  split; [exact A|]. split.
  - intros s o s' t Hs Hz Ht.
    destruct (step_inv _ _ _ _ _ Hs) as (body & -> & HP).
    rewrite is_entry_day, opening_orders_day.
    inversion HP; subst; try (split; reflexivity); try (exfalso; lia);
      try (unfold has_position; rewrite Hz; split; reflexivity);
      exfalso; apply Ht; now apply time_eqb_eq.
  - intros s evs s' ts i j a b Hr Hinc Hij Ha Hb Hd Hi.
    destruct (is_entry (nth j ts [])) eqn:Hj; [exfalso | reflexivity].
    destruct (run_nth _ _ _ _ _ Hr) as [_ Hn].
    destruct (Hn i _ (bar_at_nth _ _ _ Ha)) as (si & si' & Hsi).
    destruct (Hn j _ (bar_at_nth _ _ _ Hb)) as (sj & sj' & Hsj).
    cbn in Hsi, Hsj.
    destruct (A _ _ _ _ Hsi Hi) as [Hta _].
    destruct (A _ _ _ _ Hsj Hj) as [Htb _].
    specialize (Hinc i j a b Hij Ha Hb). unfold timestamp_ltb in Hinc.
    rewrite Hd, Z.ltb_irrefl, Z.eqb_refl, Hta, Htb in Hinc.
    cbn in Hinc. discriminate.
Qed.

Lemma after_day_logic_day (s : State) (o : Obs) :
  current_day (after_day_logic s o) = Some (dt_date o).
Proof.
  unfold after_day_logic, is_new_day.
  destruct (current_day s) as [d|] eqn:Hd; [|reflexivity].
  destruct (d =? dt_date o)%Z eqn:E; cbn [negb]; [|reflexivity].
  apply Z.eqb_eq in E. congruence.
Qed.

Lemma same_day_not_new (s : State) (o : Obs) :
  current_day s = Some (dt_date o) -> is_new_day s o = false.
Proof.
  unfold is_new_day. intros ->. now rewrite Z.eqb_refl.
Qed.

(** A bar of the day the strategy is halted for: [next] returns at once. *)
Lemma step_halted (p : Params) (s : State) (o : Obs) :
  trading_halted s = true -> current_day s = Some (dt_date o) ->
  step p s o = Ok (s, []).
Proof.
  intros Hh Hd. rewrite step_unfold. cbv zeta.
  unfold after_day_logic, day_trace.
  rewrite (same_day_not_new _ _ Hd), Hh. reflexivity.
Qed.

Lemma notify_trade_keeps (c : bool) (pnl : Q) (s s' : State)
    (t : list Action) :
  run_handler (notify_trade c pnl) s = Ok (s', t) ->
  trading_halted s' = trading_halted s /\ current_day s' = current_day s.
Proof.
  cbv [run_handler notify_trade log emit get put ret bind].
  destruct c; cbn [negb]; intro H; inversion H; subst; split; reflexivity.
Qed.

(** When a bar logs the loss limit, the state it leaves is halted for that
    bar's day. *)
Lemma step_breach_halts (p : Params) (s : State) (o : Obs) (s' : State)
    (t : list Action) :
  step p s o = Ok (s', t) -> logged MDailyLossHit t = true ->
  trading_halted s' = true /\ current_day s' = Some (dt_date o) /\
  trading_halted (after_day_logic s o) = false.
Proof.
  intros Hs Hl. destruct (step_inv _ _ _ _ _ Hs) as (body & -> & HP).
  rewrite logged_loss_day in Hl.
  inversion HP; subst; try discriminate Hl;
    try (destruct (has_position o); discriminate Hl).
  repeat split; auto. cbn. apply after_day_logic_day.
Qed.

Lemma run_halted_day (p : Params) (d : Z) (evs : list Event) :
  forall s s' ts j b,
    trading_halted s = true -> current_day s = Some d ->
    run p s evs = Ok (s', ts) ->
    bar_at evs j = Some b ->
    (forall k c, (k <= j)%nat -> bar_at evs k = Some c -> dt_date c = d) ->
    nth j ts [] = [].
Proof.
  induction evs as [|e evs IH]; intros s s' ts j b Hh Hd Hr Hb Hall.
  - destruct j; discriminate Hb.
  - cbn in Hr.
    destruct (handle p s e) as [[s1 t]|] eqn:He; [|discriminate].
    destruct (run p s1 evs) as [[s2 ts']|] eqn:Hr'; [|discriminate].
    inversion Hr; subst.
    assert (Hkeep : trading_halted s1 = true /\ current_day s1 = Some d /\
                    (forall o, e = EvNext o -> t = [])).
    { destruct e as [c pnl | o]; cbn in He.
      - destruct (notify_trade_keeps _ _ _ _ _ He) as [-> ->].
        repeat split; auto. discriminate.
      - assert (Ho : dt_date o = d) by (apply (Hall 0%nat); [lia|reflexivity]).
        rewrite step_halted in He by congruence.
        inversion He; subst. repeat split; auto. }
    destruct Hkeep as (Hh1 & Hd1 & Ht).
    destruct j as [|j].
    + cbn. unfold bar_at in Hb. cbn in Hb.
      destruct e as [c pnl | o]; [discriminate|]. now apply (Ht o).
    + cbn. apply (IH s1 s' ts' j b); auto.
      intros k c Hk Hc. apply (Hall (S k)); [lia | exact Hc].
Qed.

(** C1. The day's loss breach halts trading for the rest of that day.  On
    a later bar of the halted day [next] returns at once: the state is
    unchanged and nothing is logged or ordered, whatever the bar's prices
    and the position (no entry, no reversal, no second loss test).  Only
    the reset of a new day's first bar clears the flag.  Over a stream whose
    dates never go back, a bar that follows a breach on the same day has an
    empty trace, so a day has at most one breach. *)
Theorem halt_is_sticky (p : Params) :
  (forall s o,
      trading_halted s = true -> current_day s = Some (dt_date o) ->
      step p s o = Ok (s, [])) /\
  (forall s e s' t,
      handle p s e = Ok (s', t) ->
      trading_halted s = true -> trading_halted s' = false ->
      exists o, e = EvNext o /\ is_new_day s o = true /\
                logged MStartOfDay t = true) /\
  (forall s evs s' ts i j a b,
      run p s evs = Ok (s', ts) -> dates_ordered evs -> (i < j)%nat ->
      bar_at evs i = Some a -> bar_at evs j = Some b ->
      dt_date a = dt_date b ->
      logged MDailyLossHit (nth i ts []) = true ->
      nth j ts [] = [] /\ logged MDailyLossHit (nth j ts []) = false).
Proof.
  split; [apply step_halted|]. split.
  - intros s e s' t He Hh Hh'.
    destruct e as [c pnl | o]; cbn in He.
    + destruct (notify_trade_keeps _ _ _ _ _ He) as [E _]. congruence.
    + exists o. split; [reflexivity|].
      destruct (is_new_day s o) eqn:Hn.
      * split; [reflexivity|].
        destruct (step_inv _ _ _ _ _ He) as (body & -> & _).
        unfold day_trace. rewrite Hn. reflexivity.
      * exfalso. destruct (step_inv _ _ _ _ _ He) as (body & -> & HP).
        assert (E : after_day_logic s o = s)
          by (unfold after_day_logic; now rewrite Hn).
        inversion HP; subst;
          try match goal with
              | H : reaches_management _ _ _ = true |- _ =>
                  unfold reaches_management in H;
                  rewrite !andb_true_iff, !negb_true_iff in H;
                  destruct H as [[[H _] _] _]
              end;
          rewrite ?E in *; cbn in *; congruence.
  - intros s evs. revert s.
    induction evs as [|e evs IH];
      intros s s' ts i j a b Hr Hord Hij Ha Hb Hd Hl.
    + destruct i; discriminate Ha.
    + cbn in Hr.
      destruct (handle p s e) as [[s1 t]|] eqn:He; [|discriminate].
      destruct (run p s1 evs) as [[s2 ts']|] eqn:Hr'; [|discriminate].
      inversion Hr; subst.
      destruct j as [|j]; [lia|].
      destruct i as [|i].
      * unfold bar_at in Ha. cbn in Ha.
        destruct e as [c pnl | o]; [discriminate|].
        inversion Ha; subst. cbn in He, Hl.
        destruct (step_breach_halts _ _ _ _ _ He Hl) as (Hh1 & Hd1 & _).
        assert (E : nth j ts' [] = []).
        { apply (run_halted_day p (dt_date a) evs s1 s' ts' j b); auto.
          intros k c Hk Hc.
          assert (L1 : (dt_date a <= dt_date c)%Z).
          { apply (Hord 0%nat (S k)); [lia | reflexivity | exact Hc]. }
          assert (L2 : (dt_date c <= dt_date b)%Z).
          { destruct (Nat.eq_dec k j) as [->|Hne].
            - unfold bar_at in Hb, Hc. cbn in Hb. rewrite Hb in Hc.
              inversion Hc; lia.
            - apply (Hord (S k) (S j)); [lia | exact Hc | exact Hb]. }
          lia. }
        cbn. rewrite E. split; reflexivity.
      * cbn. apply (IH s1 s' ts' i j a b); auto; try lia.
        intros i' j' a' b' Hlt Ha' Hb'.
        apply (Hord (S i') (S j')); [lia | exact Ha' | exact Hb'].
Qed.

Lemma stream2_pairs {A} (x y : A) (i j : nat) (a b : A) :
  (i < j)%nat -> nth_error [x; y] i = Some a -> nth_error [x; y] j = Some b ->
  a = x /\ b = y.
Proof.
  intros Hij Ha Hb.
  destruct i as [|[|i]]; destruct j as [|[|[|j]]]; cbn in *;
    try lia; try discriminate.
  split; congruence.
Qed.

Lemma stream_entry_increasing : increasing Examples.stream_entry.
Proof.
  intros i j a b Hij Ha Hb.
  apply bar_at_nth in Ha, Hb.
  destruct (stream2_pairs _ _ _ _ _ _ Hij Ha Hb) as [E1 E2].
  inversion E1; inversion E2; subst. reflexivity.
Qed.

Lemma entry_only_on_entry_bar_witness :
  (dt_time Examples.bar_entry = time_hm 9 35 /\
   position_size Examples.bar_entry = 0%Z) /\
  is_entry [] = false /\
  is_entry [] = false.
Proof.
  destruct (entry_only_on_entry_bar default_params) as (A & B & C).
  split; [|split].
  - destruct (A init Examples.bar_entry
                (set_highest_high 5010
                   (after_day_logic init Examples.bar_entry))
                [ALog MStartOfDay; ALog MFirstBarLong; ABuy 1]
                eq_refl eq_refl) as (H1 & H2 & _).
    split; assumption.
  - destruct (B Examples.s_long Examples.bar_flat_1000 Examples.s_long []
                eq_refl eq_refl) as [H _]; [discriminate | exact H].
  - exact (C init Examples.stream_entry
             (set_highest_high (py_max 5010 5012)
                (set_highest_high 5010
                   (after_day_logic init Examples.bar_entry)))
             [[ALog MStartOfDay; ALog MFirstBarLong; ABuy 1]; []]
             0%nat 1%nat Examples.bar_entry Examples.bar_hold
             eq_refl stream_entry_increasing (Nat.lt_0_1)
             eq_refl eq_refl eq_refl eq_refl).
Defined.

Lemma stream_loss_ordered : dates_ordered Examples.stream_loss.
Proof.
  intros i j a b Hij Ha Hb. unfold bar_at in Ha, Hb.
  destruct i as [|[|[|i]]]; destruct j as [|[|[|j]]]; cbn in Ha, Hb;
    try discriminate; try lia;
    try (destruct i; discriminate); try (destruct j; discriminate);
    inversion Ha; inversion Hb; subst; cbn; lia.
Qed.

Lemma halt_is_sticky_witness :
  step default_params Examples.s_halted Examples.bar_after_loss
    = Ok (Examples.s_halted, []) /\
  (nth 2 [[ALog MDailyLossHit; AClose]; [ALog MTradeClosed]; []] []
     = ([] : list Action) /\
   logged MDailyLossHit
     (nth 2 [[ALog MDailyLossHit; AClose]; [ALog MTradeClosed]; []] [])
     = false).
Proof.
  destruct (halt_is_sticky default_params) as (A & B & C).
  split.
  - exact (A Examples.s_halted Examples.bar_after_loss eq_refl eq_refl).
  - exact (C Examples.s_long Examples.stream_loss
             (set_daily_realized_pnl (0 + -210)
                (set_trading_halted true Examples.s_long))
             [[ALog MDailyLossHit; AClose]; [ALog MTradeClosed]; []]
             0%nat 2%nat Examples.bar_loss Examples.bar_after_loss
             eq_refl stream_loss_ordered (Nat.lt_0_2)
             eq_refl eq_refl eq_refl eq_refl).
Defined.

(** C2, as the code has it.  Called while flat, [reverse_position] takes
    its last branch: it returns normally, calls nothing and leaves every
    attribute as it was. *)
Theorem reverse_position_flat_is_noop (p : Params) (o : Obs) (sig : Signal)
    (s : State) (t : list Action) :
  position_size o = 0%Z ->
  reverse_position p o sig s t = Ok (tt, s, t).
Proof.
  intro H. unfold reverse_position. rewrite H. reflexivity.
Qed.

Lemma reverse_position_flat_is_noop_witness :
  reverse_position default_params Examples.bar_flat_1000 TrailingStop
    Examples.s_long [] = Ok (tt, Examples.s_long, []).
Proof.
  exact (reverse_position_flat_is_noop default_params Examples.bar_flat_1000
           TrailingStop Examples.s_long [] eq_refl).
Defined.

(** C2, counterexample.  A reversal asked for while flat raises nothing: it
    completes with the state untouched and an empty trace. *)
Lemma reverse_position_flat_does_not_raise :
  position_size Examples.bar_flat_1000 = 0%Z /\
  run_handler
    (reverse_position default_params Examples.bar_flat_1000 TrailingStop)
    Examples.s_long = Ok (Examples.s_long, []) /\
  (forall e,
      run_handler
        (reverse_position default_params Examples.bar_flat_1000 TrailingStop)
        Examples.s_long <> Raise e).
Proof.
  split; [reflexivity|]. split; [reflexivity|]. intros e H. discriminate H.
Qed.

Lemma long_stop_hitb_iff (p : Params) (x : Q) (o : Obs) :
  long_stop_hitb p x o = true <-> long_stop_hit p x o.
Proof.
  unfold long_stop_hitb, long_stop_hit, reversal_dist.
  destruct (atr o) as [a|].
  - rewrite Qltb_iff. split.
    + intro H. exists a. now split.
    + intros (a' & [= <-] & H). exact H.
  - split; [discriminate | intros (a' & E & _); discriminate].
Qed.

Lemma short_stop_hitb_iff (p : Params) (x : Q) (o : Obs) :
  short_stop_hitb p x o = true <-> short_stop_hit p x o.
Proof.
  unfold short_stop_hitb, short_stop_hit, reversal_dist, Qgtb.
  destruct (atr o) as [a|].
  - rewrite Qltb_iff. split.
    + intro H. exists a. now split.
    + intros (a' & [= <-] & H). exact H.
  - split; [discriminate | intros (a' & E & _); discriminate].
Qed.

(** The trade management of a bar whose held side has its extreme set. *)
Lemma managed_trailing_stop (p : Params) (s : State) (o : Obs) :
  reaches_management p s o = true ->
  (forall h, (0 < position_size o)%Z -> highest_high s = Some h ->
     exists s' t,
       step p s o = Ok (s', t) /\
       highest_high s' = Some (py_max h (datahigh o)) /\
       (trailing_fired t = true <->
        long_stop_hit p (py_max h (datahigh o)) o) /\
       (trailing_fired t = true ->
        orders t = [AClose; ASell (fixed_size p)] /\
        lowest_low s' = Some (datalow o))) /\
  (forall l, (position_size o < 0)%Z -> lowest_low s = Some l ->
     exists s' t,
       step p s o = Ok (s', t) /\
       lowest_low s' = Some (py_min l (datalow o)) /\
       (trailing_fired t = true <->
        short_stop_hit p (py_min l (datalow o)) o) /\
       (trailing_fired t = true ->
        orders t = [AClose; ABuy (fixed_size p)] /\
        highest_high s' = Some (datahigh o))).
Proof.
  intro Hm. split.
  - intros h Hpos Hh.
    destruct (long_stop_hitb p (py_max h (datahigh o)) o) eqn:Ht.
    + pose proof (step_of_path _ _ _ _ _
                    (PLongTrail p s o h Hm Hpos Hh Ht)) as E.
      do 2 eexists. split; [exact E|].
      rewrite trailing_fired_day, orders_day.
      split; [reflexivity|]. split.
      * split; [intros _; now apply long_stop_hitb_iff | reflexivity].
      * intros _. split; reflexivity.
    + assert (Hno : ~ long_stop_hit p (py_max h (datahigh o)) o).
      { intro H. apply long_stop_hitb_iff in H. congruence. }
      destruct (is_vol_spike p o && Qltb (dataclose o) (dataclose_prev o))
        eqn:Hv.
      * apply andb_true_iff in Hv. destruct Hv as [Hv1 Hv2].
        pose proof (step_of_path _ _ _ _ _
                      (PLongVolume p s o h Hm Hpos Hh Ht Hv1 Hv2)) as E.
        do 2 eexists. split; [exact E|].
        rewrite trailing_fired_day.
        split; [reflexivity|]. split.
        -- split; [discriminate | intro H; now destruct Hno].
        -- discriminate.
      * pose proof (step_of_path _ _ _ _ _
                      (PLongHold p s o h Hm Hpos Hh Ht Hv)) as E.
        do 2 eexists. split; [exact E|].
        rewrite trailing_fired_day.
        split; [reflexivity|]. split.
        -- split; [discriminate | intro H; now destruct Hno].
        -- discriminate.
  - intros l Hneg Hl.
    destruct (short_stop_hitb p (py_min l (datalow o)) o) eqn:Ht.
    + pose proof (step_of_path _ _ _ _ _
                    (PShortTrail p s o l Hm Hneg Hl Ht)) as E.
      do 2 eexists. split; [exact E|].
      rewrite trailing_fired_day, orders_day.
      split; [reflexivity|]. split.
      * split; [intros _; now apply short_stop_hitb_iff | reflexivity].
      * intros _. split; reflexivity.
    + assert (Hno : ~ short_stop_hit p (py_min l (datalow o)) o).
      { intro H. apply short_stop_hitb_iff in H. congruence. }
      destruct (is_vol_spike p o && Qgtb (dataclose o) (dataclose_prev o))
        eqn:Hv.
      * apply andb_true_iff in Hv. destruct Hv as [Hv1 Hv2].
        pose proof (step_of_path _ _ _ _ _
                      (PShortVolume p s o l Hm Hneg Hl Ht Hv1 Hv2)) as E.
        do 2 eexists. split; [exact E|].
        rewrite trailing_fired_day.
        split; [reflexivity|]. split.
        -- split; [discriminate | intro H; now destruct Hno].
        -- discriminate.
      * pose proof (step_of_path _ _ _ _ _
                      (PShortHold p s o l Hm Hneg Hl Ht Hv)) as E.
        do 2 eexists. split; [exact E|].
        rewrite trailing_fired_day.
        split; [reflexivity|]. split.
        -- split; [discriminate | intro H; now destruct Hno].
        -- discriminate.
Qed.

(** A bar in position that does not reach the trade management: [next]
    returns before it. *)
Lemma unmanaged_bar_in_position (p : Params) (s : State) (o : Obs) :
  reaches_management p s o = false -> position_size o <> 0%Z ->
  exists s' t,
    step p s o = Ok (s', t) /\
    reversals t = 0%nat /\ trailing_fired t = false /\
    volume_fired t = false /\
    highest_high s' = highest_high s /\ lowest_low s' = lowest_low s.
Proof.
  intros Hm Hz.
  destruct (after_day_logic_extremes s o) as [Ehh Ell].
  assert (Hp : has_position o = true).
  { unfold has_position. apply negb_true_iff, Z.eqb_neq. exact Hz. }
  rewrite step_unfold. cbv zeta. unfold reaches_management in Hm.
  destruct (trading_halted (after_day_logic s o)) eqn:Hh.
  { do 2 eexists. split; [reflexivity|].
    rewrite <- (app_nil_r (day_trace s o)).
    rewrite reversals_day, trailing_fired_day, volume_fired_day.
    repeat split; assumption. }
  destruct (breach p s o) eqn:Hb.
  { do 2 eexists. split; [reflexivity|].
    rewrite reversals_day, trailing_fired_day, volume_fired_day.
    repeat split; assumption. }
  destruct (time_geb (dt_time o) market_close) eqn:Hc.
  { rewrite Hp. do 2 eexists. split; [reflexivity|].
    rewrite <- app_assoc.
    rewrite reversals_day, trailing_fired_day, volume_fired_day.
    repeat split; assumption. }
  destruct (time_eqb (dt_time o) first_bar_close) eqn:He;
    [|discriminate Hm].
  rewrite first_bar_entry_unfold, Hp.
  do 2 eexists. split; [reflexivity|].
  rewrite <- (app_nil_r (day_trace s o)).
  rewrite reversals_day, trailing_fired_day, volume_fired_day.
  repeat split; assumption.
Qed.

(** C6, as the code has it.  On a bar that reaches the trade management
    (not halted, no loss breach, before 15:45 and not the 09:35 bar), with
    the held side's extreme set: the extreme is updated first (largest high
    when long, smallest low when short) and the trailing-stop reversal
    fires exactly when the close is beyond the updated extreme by
    ATR x trail_atr; it then closes, orders the opposite side in the fixed
    size and sets the other extreme to the bar's low (long) or high
    (short).  With the held side's extreme never set, the update raises
    [TypeError].  On every other bar in position [next] returns without
    reaching the trade management: no reversal is made and neither extreme
    is changed. *)
Theorem trailing_stop_on_managed_bar (p : Params) (s : State) (o : Obs) :
  (reaches_management p s o = true ->
   (forall h, (0 < position_size o)%Z -> highest_high s = Some h ->
      exists s' t,
        step p s o = Ok (s', t) /\
        highest_high s' = Some (py_max h (datahigh o)) /\
        (trailing_fired t = true <->
         long_stop_hit p (py_max h (datahigh o)) o) /\
        (trailing_fired t = true ->
         orders t = [AClose; ASell (fixed_size p)] /\
         lowest_low s' = Some (datalow o))) /\
   (forall l, (position_size o < 0)%Z -> lowest_low s = Some l ->
      exists s' t,
        step p s o = Ok (s', t) /\
        lowest_low s' = Some (py_min l (datalow o)) /\
        (trailing_fired t = true <->
         short_stop_hit p (py_min l (datalow o)) o) /\
        (trailing_fired t = true ->
         orders t = [AClose; ABuy (fixed_size p)] /\
         highest_high s' = Some (datahigh o))) /\
   ((0 < position_size o)%Z -> highest_high s = None ->
    step p s o = Raise TypeError) /\
   ((position_size o < 0)%Z -> lowest_low s = None ->
    step p s o = Raise TypeError)) /\
  (reaches_management p s o = false -> position_size o <> 0%Z ->
   exists s' t,
     step p s o = Ok (s', t) /\
     reversals t = 0%nat /\ trailing_fired t = false /\
     volume_fired t = false /\
     highest_high s' = highest_high s /\ lowest_low s' = lowest_low s).
Proof.
  split; [|apply unmanaged_bar_in_position].
  intro Hm. destruct (managed_trailing_stop p s o Hm) as [L S].
  destruct (after_day_logic_extremes s o) as [Ehh Ell].
  split; [exact L|]. split; [exact S|].
  assert (G := Hm). unfold reaches_management in G.
  rewrite !andb_true_iff, !negb_true_iff in G.
  destruct G as [[[Hh Hb] Hc] He].
  split; intros Hpos Hn; rewrite step_unfold; cbv zeta;
    rewrite Hh, Hb, Hc, He.
  - rewrite trade_management_long_none by congruence. reflexivity.
  - rewrite trade_management_short_none by congruence. reflexivity.
Qed.

Lemma trailing_stop_on_managed_bar_witness :
  (exists s' t,
      step default_params Examples.s_long Examples.bar_stop = Ok (s', t) /\
      highest_high s' = Some (py_max 5010 (datahigh Examples.bar_stop)) /\
      (trailing_fired t = true <->
       long_stop_hit default_params
         (py_max 5010 (datahigh Examples.bar_stop)) Examples.bar_stop) /\
      (trailing_fired t = true ->
       orders t = [AClose; ASell (fixed_size default_params)] /\
       lowest_low s' = Some (datalow Examples.bar_stop))) /\
  (exists s' t,
      step default_params Examples.s_short Examples.bar_stop_short
        = Ok (s', t) /\
      lowest_low s' = Some (py_min 4995 (datalow Examples.bar_stop_short)) /\
      (trailing_fired t = true <->
       short_stop_hit default_params
         (py_min 4995 (datalow Examples.bar_stop_short))
         Examples.bar_stop_short) /\
      (trailing_fired t = true ->
       orders t = [AClose; ABuy (fixed_size default_params)] /\
       highest_high s' = Some (datahigh Examples.bar_stop_short))) /\
  step default_params Examples.s_untracked Examples.bar_hold
    = Raise TypeError /\
  (exists s' t,
      step default_params Examples.s_long Examples.bar_close_window
        = Ok (s', t) /\
      reversals t = 0%nat /\ trailing_fired t = false /\
      volume_fired t = false /\
      highest_high s' = highest_high Examples.s_long /\
      lowest_low s' = lowest_low Examples.s_long).
Proof.
  split; [|split; [|split]].
  - destruct (trailing_stop_on_managed_bar default_params Examples.s_long
                Examples.bar_stop) as [M _].
    destruct (M eq_refl) as (L & _). exact (L 5010 eq_refl eq_refl).
  - destruct (trailing_stop_on_managed_bar default_params Examples.s_short
                Examples.bar_stop_short) as [M _].
    destruct (M eq_refl) as (_ & S & _). exact (S 4995 eq_refl eq_refl).
  - destruct (trailing_stop_on_managed_bar default_params
                Examples.s_untracked Examples.bar_hold) as [M _].
    destruct (M eq_refl) as (_ & _ & N & _). exact (N eq_refl eq_refl).
  - destruct (trailing_stop_on_managed_bar default_params Examples.s_long
                Examples.bar_close_window) as [_ U].
    apply U; [reflexivity | discriminate].
Defined.

(** C6, counterexample.  Long at the 15:45 bar: the bar's high 5020 is
    above the tracked 5010 and its close 4990 is below 5020 - 2 x 3, yet
    [next] only flattens: the extreme stays 5010 and no reversal is made. *)
Lemma no_trailing_stop_in_close_window :
  (0 < position_size Examples.bar_close_window)%Z /\
  highest_high Examples.s_long = Some 5010 /\
  py_max 5010 (datahigh Examples.bar_close_window) = 5020 /\
  long_stop_hit default_params 5020 Examples.bar_close_window /\
  step default_params Examples.s_long Examples.bar_close_window
    = Ok (Examples.s_long, [ALog MMarketClose; AClose]) /\
  trailing_fired [ALog MMarketClose; AClose] = false /\
  highest_high Examples.s_long <> Some 5020.
Proof.
  split; [reflexivity|]. split; [reflexivity|]. split; [reflexivity|].
  split.
  { exists 2. split; [reflexivity|]. reflexivity. }
  split; [reflexivity|]. split; [reflexivity|]. discriminate.
Qed.


Ltac management_gates :=
  repeat match goal with
         | H : reaches_management _ _ _ = true |- _ =>
             unfold reaches_management in H;
             rewrite !andb_true_iff, !negb_true_iff in H;
             destruct H as [[[? ?] ?] ?]
         end.







Lemma not_ready_iff (o : Obs) :
  indicators_ready o = false <-> atr o = None \/ vol_ma o = None.
Proof.
  unfold indicators_ready. destruct (atr o), (vol_ma o); split;
    try discriminate; auto; intros [H | H]; discriminate H.
Qed.

Lemma run_feed_nth (p : Params) (evs : list Event) :
  forall s s' ts, run_feed p s evs = Ok (s', ts) ->
  forall i e, nth_error evs i = Some e ->
    exists si si', deliver p si e = Ok (si', nth i ts []).
Proof.
  induction evs as [|e evs IH]; intros s s' ts H; cbn in H.
  - intros [|i] e He; discriminate.
  - destruct (deliver p s e) as [[s1 t]|] eqn:Hh; [|discriminate].
    destruct (run_feed p s1 evs) as [[s2 ts']|] eqn:Hr; [|discriminate].
    inversion H; subst.
    intros [|i] e' He; cbn in He.
    + inversion He; subst. exists s, s1. exact Hh.
    + cbn. eauto.
Qed.

(** The state is untouched by a run of warm-up bars. *)
Lemma run_feed_warmup (p : Params) (evs : list Event) :
  forall s s' ts,
    run_feed p s evs = Ok (s', ts) ->
    (forall e, In e evs -> exists o, e = EvNext o /\
                                     indicators_ready o = false) ->
    s' = s /\ Forall (fun t => t = []) ts.
Proof.
  induction evs as [|e evs IH]; intros s s' ts H Hall; cbn in H.
  - inversion H; subst. split; [reflexivity | constructor].
  - destruct (Hall e (or_introl eq_refl)) as (o & -> & Hn).
    cbn [deliver] in H. unfold on_bar in H. rewrite Hn in H.
    cbn [run_handler prenext ret] in H.
    destruct (run_feed p s evs) as [[s2 ts']|] eqn:Hr; [|discriminate].
    inversion H; subst.
    destruct (IH _ _ _ Hr (fun e He => Hall e (or_intror He))) as [-> F].
    split; [reflexivity | now constructor].
Qed.

(** C9. While the ATR or the volume average has no value the strategy
    decides nothing.  A bar of the warm-up is dispatched to the inherited
    [prenext]: no attribute changes and nothing is logged or ordered, so
    no position is entered, also when it is the 09:35 bar.  Over a stream
    every such bar has an empty trace, a stream of warm-up bars leaves the
    strategy as [__init__] made it, and a bar that does log or order
    anything has both indicators defined. *)
Theorem no_trade_during_warmup (p : Params) :
  (forall s o,
      atr o = None \/ vol_ma o = None ->
      on_bar p s o = Ok (s, [])) /\
  (forall s evs s' ts i o,
      run_feed p s evs = Ok (s', ts) ->
      bar_at evs i = Some o ->
      atr o = None \/ vol_ma o = None ->
      nth i ts [] = [] /\ is_entry (nth i ts []) = false /\
      orders (nth i ts []) = []) /\
  (forall evs s' ts,
      run_feed p init evs = Ok (s', ts) ->
      (forall e, In e evs ->
         exists o, e = EvNext o /\ indicators_ready o = false) ->
      s' = init /\ Forall (fun t => t = []) ts) /\
  (forall s o s' t,
      on_bar p s o = Ok (s', t) -> t <> [] ->
      exists a v, atr o = Some a /\ vol_ma o = Some v).
Proof.
  assert (A : forall s o, atr o = None \/ vol_ma o = None ->
                          on_bar p s o = Ok (s, [])).
  { intros s o Hn. apply not_ready_iff in Hn. unfold on_bar.
    rewrite Hn. reflexivity. }
  split; [exact A|]. split; [|split].
  - intros s evs s' ts i o Hr Hb Hn.
    destruct (run_feed_nth _ _ _ _ _ Hr i _ (bar_at_nth _ _ _ Hb))
      as (si & si' & Hd).
    cbn [deliver] in Hd. rewrite (A si o Hn) in Hd.
    assert (E : nth i ts [] = []) by congruence.
    rewrite E. repeat split.
  - intros evs s' ts Hr Hall. exact (run_feed_warmup p evs _ _ _ Hr Hall).
  - intros s o s' t Hb Ht. unfold on_bar, indicators_ready in Hb.
    destruct (atr o) as [a|], (vol_ma o) as [v|];
      try (inversion Hb; subst; contradiction).
    exists a, v. split; reflexivity.
Qed.

Lemma no_trade_during_warmup_witness :
  on_bar default_params init Examples.bar_warmup = Ok (init, []) /\
  (nth 1 [[]; []; [ALog MStartOfDay]] [] = ([] : list Action) /\
   is_entry (nth 1 [[]; []; [ALog MStartOfDay]] []) = false /\
   orders (nth 1 [[]; []; [ALog MStartOfDay]] []) = []) /\
  (exists a v, atr Examples.bar_entry = Some a /\
               vol_ma Examples.bar_entry = Some v).
Proof.
  destruct (no_trade_during_warmup default_params) as (A & B & _ & D).
  split; [|split].
  - apply A. left. reflexivity.
  - apply (B init Examples.stream_warmup
             (after_day_logic init Examples.bar_flat_1000)
             [[]; []; [ALog MStartOfDay]] 1%nat Examples.bar_warmup).
    + reflexivity.
    + reflexivity.
    + left. reflexivity.
  - apply (D init Examples.bar_entry
             (set_highest_high 5010
                (after_day_logic init Examples.bar_entry))
             [ALog MStartOfDay; ALog MFirstBarLong; ABuy 1]).
    + reflexivity.
    + discriminate.
Defined.

End StrategyFacts.

Module MonteCarloFacts.
Import MonteCarlo MonteCarloExamples.

(** *** The dictionary *)

Lemma dict_mem_keys (k : Z) (d : dict) :
  dict_mem k d = existsb (Z.eqb k) (dict_keys d).
Proof.
  induction d as [|[k' v] d IH]; [reflexivity|]. cbn. now rewrite IH.
Qed.

Lemma dict_get_set_same (k : Z) (v : Q) (d : dict) :
  dict_get k (dict_set k v d) = Ok v.
Proof.
  induction d as [|[k' v'] d IH]; cbn.
  - now rewrite Z.eqb_refl.
  - destruct (k =? k')%Z eqn:E; cbn; rewrite E; [reflexivity | exact IH].
Qed.

Lemma dict_get_set_other (k k' : Z) (v : Q) (d : dict) :
  k' <> k -> dict_get k' (dict_set k v d) = dict_get k' d.
Proof.
  intro Hne. induction d as [|[k0 v0] d IH]; cbn.
  - apply Z.eqb_neq in Hne. now rewrite Hne.
  - destruct (k =? k0)%Z eqn:E; cbn.
    + apply Z.eqb_eq in E. subst.
      apply Z.eqb_neq in Hne. now rewrite Hne.
    + now rewrite IH.
Qed.

Lemma dict_keys_set (k : Z) (v : Q) (d : dict) :
  dict_keys (dict_set k v d) =
  if dict_mem k d then dict_keys d else dict_keys d ++ [k].
Proof.
  induction d as [|[k0 v0] d IH]; cbn; [reflexivity|].
  destruct (k =? k0)%Z eqn:E; cbn; [reflexivity|].
  unfold dict_keys in *. rewrite IH. now destruct (dict_mem k d).
Qed.

Lemma dict_mem_set (k : Z) (v : Q) (d : dict) :
  dict_mem k (dict_set k v d) = true.
Proof.
  induction d as [|[k0 v0] d IH]; cbn.
  - now rewrite Z.eqb_refl.
  - destruct (k =? k0)%Z eqn:E; cbn; rewrite E; [reflexivity | exact IH].
Qed.

Lemma dict_get_missing (k : Z) (d : dict) :
  dict_mem k d = false -> dict_get k d = Raise KeyError.
Proof.
  induction d as [|[k0 v0] d IH]; cbn; [reflexivity|].
  destruct (k =? k0)%Z; cbn; [discriminate | exact IH].
Qed.

Lemma dict_get_present (k : Z) (d : dict) :
  dict_mem k d = true -> exists v, dict_get k d = Ok v.
Proof.
  induction d as [|[k0 v0] d IH]; cbn; [discriminate|].
  destruct (k =? k0)%Z; cbn; [eauto | exact IH].
Qed.

(** One trade: it never raises, adds its result to its day's value and
    appends the day when it is new. *)
Lemma add_trade_spec (d : dict) (tr : Trade) :
  exists d',
    add_trade d tr = Ok d' /\
    dict_keys d' =
      (if dict_mem (close_date tr) d then dict_keys d
       else dict_keys d ++ [close_date tr]) /\
    dict_get (close_date tr) d' = Ok (held (close_date tr) d + pnlcomm tr) /\
    (forall k, k <> close_date tr -> dict_get k d' = dict_get k d) /\
    (forall k, dict_mem k d' =
               (k =? close_date tr)%Z || dict_mem k d).
Proof.
  unfold add_trade, held.
  destruct (dict_mem (close_date tr) d) eqn:Hm; cbn [negb].
  - destruct (dict_get_present _ _ Hm) as [v Hv]. rewrite Hv.
    eexists. split; [reflexivity|].
    rewrite dict_keys_set, Hm, dict_get_set_same.
    repeat split; auto.
    + intros k Hk. now apply dict_get_set_other.
    + intro k. rewrite !dict_mem_keys, dict_keys_set, Hm.
      destruct (k =? close_date tr)%Z eqn:E; [|reflexivity].
      apply Z.eqb_eq in E. subst. now rewrite <- dict_mem_keys, Hm.
  - rewrite dict_get_set_same, (dict_get_missing _ _ Hm).
    eexists. split; [reflexivity|].
    rewrite dict_keys_set, dict_mem_set, dict_keys_set, Hm,
      dict_get_set_same.
    repeat split; auto.
    + intros k Hk. rewrite !dict_get_set_other by assumption. reflexivity.
    + intro k. rewrite !dict_mem_keys, dict_keys_set, dict_mem_set,
        dict_keys_set, Hm, existsb_app. cbn.
      rewrite orb_false_r. apply orb_comm.
Qed.

Lemma pnls_on_cons (k : Z) (tr : Trade) (l : list Trade) :
  pnls_on k (tr :: l) =
  if (close_date tr =? k)%Z then pnlcomm tr :: pnls_on k l else pnls_on k l.
Proof.
  unfold pnls_on. cbn. now destruct (close_date tr =? k)%Z.
Qed.

(** The whole loop, from any dictionary. *)
Lemma add_trades_spec (l : list Trade) :
  forall d, exists d',
    add_trades d l = Ok d' /\
    dict_keys d' = dict_keys d ++ first_seen (dict_keys d) (map close_date l) /\
    (forall k, dict_mem k d' =
               dict_mem k d || existsb (fun t => (close_date t =? k)%Z) l) /\
    (forall k, dict_mem k d' = true ->
               dict_get k d' = Ok (fold_left Qplus (pnls_on k l) (held k d))).
Proof.
  induction l as [|tr l IH]; intro d.
  - exists d. cbn. rewrite app_nil_r. repeat split; auto.
    + intro k. now rewrite orb_false_r.
    + intros k Hk. unfold held.
      destruct (dict_get_present _ _ Hk) as [v ->]. reflexivity.
  - destruct (add_trade_spec d tr) as (d1 & E1 & K1 & G1 & O1 & M1).
    destruct (IH d1) as (d2 & E2 & K2 & M2 & G2).
    exists d2. cbn [add_trades]. rewrite E1. split; [exact E2|].
    split; [|split].
    + rewrite K2, K1. cbn [map first_seen].
      rewrite <- dict_mem_keys.
      destruct (dict_mem (close_date tr) d); [reflexivity|].
      now rewrite <- app_assoc.
    + intro k. rewrite M2, M1. cbn [existsb].
      rewrite (Z.eqb_sym (close_date tr) k).
      destruct (k =? close_date tr)%Z, (dict_mem k d); reflexivity.
    + intros k Hk. rewrite (G2 k Hk), pnls_on_cons.
      destruct (close_date tr =? k)%Z eqn:E.
      * apply Z.eqb_eq in E. subst k. cbn [fold_left].
        unfold held at 1. rewrite G1. reflexivity.
      * apply Z.eqb_neq in E. unfold held. rewrite O1 by congruence.
        reflexivity.
Qed.

Lemma existsb_eqb_In (k : Z) (l : list Z) :
  existsb (Z.eqb k) l = true <-> In k l.
Proof.
  rewrite existsb_exists. split.
  - intros (x & Hx & E). apply Z.eqb_eq in E. now subst.
  - intro H. exists k. split; [exact H | apply Z.eqb_refl].
Qed.

Lemma existsb_date_In (k : Z) (l : list Trade) :
  existsb (fun t => (close_date t =? k)%Z) l = true <->
  In k (map close_date l).
Proof.
  rewrite existsb_exists, in_map_iff. split.
  - intros (x & Hx & E). apply Z.eqb_eq in E. eauto.
  - intros (x & E & Hx). exists x. split; [exact Hx | now apply Z.eqb_eq].
Qed.

(** [first_seen] keeps one copy of each new key. *)
Lemma first_seen_spec (l : list Z) :
  forall seen,
    NoDup (first_seen seen l) /\
    (forall x, In x (first_seen seen l) -> In x l /\ ~ In x seen).
Proof.
  induction l as [|k l IH]; intro seen; cbn.
  - split; [constructor | intros x []].
  - destruct (existsb (Z.eqb k) seen) eqn:E.
    + destruct (IH seen) as [N I]. split; [exact N|].
      intros x Hx. destruct (I x Hx). auto.
    + destruct (IH (seen ++ [k])) as [N I]. split.
      * constructor; [|exact N]. intro Hk. destruct (I k Hk) as [_ Hn].
        apply Hn, in_or_app. right. now left.
      * intros x [<- | Hx].
        -- split; [now left|]. intro Hin.
           apply existsb_eqb_In in Hin. congruence.
        -- destruct (I x Hx) as [Hl Hn]. split; [now right|].
           intro Hin. apply Hn, in_or_app. now left.
Qed.

(** Trades in the order of their close dates give the days in increasing
    order. *)
Lemma first_seen_sorted (l : list Z) :
  forall seen,
    StronglySorted Z.le l ->
    (forall x y, In x seen -> In y l -> (x <= y)%Z) ->
    StronglySorted Z.lt (first_seen seen l).
Proof.
  induction l as [|k l IH]; intros seen Hs Hle; cbn; [constructor|].
  inversion Hs as [|? ? Hs' Hk]; subst.
  destruct (existsb (Z.eqb k) seen) eqn:E.
  - apply IH; [exact Hs'|]. intros x y Hx Hy. apply Hle; [exact Hx | now right].
  - assert (Hle' : forall x y, In x (seen ++ [k]) -> In y l -> (x <= y)%Z).
    { intros x y Hx Hy. apply in_app_or in Hx. destruct Hx as [Hx | [<- | []]].
      - apply Hle; [exact Hx | now right].
      - rewrite Forall_forall in Hk. now apply Hk. }
    constructor; [now apply IH|].
    apply Forall_forall. intros y Hy.
    destruct (first_seen_spec l (seen ++ [k])) as [_ I].
    destruct (I y Hy) as [Hl Hn].
    assert (k <= y)%Z by (rewrite Forall_forall in Hk; now apply Hk).
    assert (y <> k).
    { intros ->. apply Hn, in_or_app. right. now left. }
    lia.
Qed.

Lemma dict_values_by_key (d : dict) :
  NoDup (dict_keys d) ->
  dict_values d = map (fun k => held k d) (dict_keys d).
Proof.
  induction d as [|[k v] d IH]; intro N; [reflexivity|].
  cbn in N. inversion N as [|? ? Hk N']; subst.
  cbn. unfold held at 1. cbn. rewrite Z.eqb_refl. f_equal.
  unfold dict_values, dict_keys in *. rewrite (IH N').
  apply map_ext_in. intros k' Hk'. unfold held. cbn.
  destruct (k' =? k)%Z eqn:E; [|reflexivity].
  apply Z.eqb_eq in E. subst. contradiction.
Qed.

(** C10. The aggregation loop never raises.  Each day with a closed trade
    holds the sum of the net results of the trades closed on that day,
    accumulated from 0.0 in trade order; a day without one has no entry.
    The days stand in the order in which they were first seen, the
    sequence handed to the simulation lists their sums in that order, and
    when the trades come in the order of their close dates the days are
    in increasing order. *)
Theorem daily_pnl_is_sum_of_day (trade_list : list Trade) :
  exists daily_pnls,
    daily_pnls_of trade_list = Ok daily_pnls /\
    (forall d, In d (map close_date trade_list) ->
               dict_get d daily_pnls = Ok (Qsum (pnls_on d trade_list))) /\
    (forall d, ~ In d (map close_date trade_list) ->
               dict_get d daily_pnls = Raise KeyError) /\
    dict_keys daily_pnls = first_seen [] (map close_date trade_list) /\
    dict_values daily_pnls =
      map (fun d => Qsum (pnls_on d trade_list)) (dict_keys daily_pnls) /\
    (StronglySorted Z.le (map close_date trade_list) ->
     StronglySorted Z.lt (dict_keys daily_pnls)).
Proof.
  destruct (add_trades_spec trade_list []) as (d' & E & K & M & G).
  exists d'. split; [exact E|]. cbn in K, M.
  assert (Gin : forall d, In d (map close_date trade_list) ->
                  dict_get d d' = Ok (Qsum (pnls_on d trade_list))).
  { intros d Hd. apply existsb_date_In in Hd.
    rewrite (G d) by (now rewrite M). reflexivity. }
  split; [exact Gin|]. split; [|split; [exact K|split]].
  - intros d Hd. apply dict_get_missing. rewrite M.
    destruct (existsb (fun t => (close_date t =? d)%Z) trade_list) eqn:Ex;
      [|reflexivity].
    apply existsb_date_In in Ex. contradiction.
  - destruct (first_seen_spec (map close_date trade_list) []) as [N I].
    rewrite dict_values_by_key by (now rewrite K).
    apply map_ext_in. intros k Hk. rewrite K in Hk.
    unfold held. rewrite Gin by (now apply I). reflexivity.
  - intro Hs. rewrite K. apply first_seen_sorted; [exact Hs|].
    intros x y [].
Qed.

Lemma daily_pnl_is_sum_of_day_witness :
  exists daily_pnls,
    daily_pnls_of sample_trades = Ok daily_pnls /\
    dict_get 739000 daily_pnls = Ok (Qsum (pnls_on 739000 sample_trades)) /\
    dict_get 739002 daily_pnls = Raise KeyError /\
    dict_keys daily_pnls = [739000; 739001; 739003]%Z /\
    StronglySorted Z.lt (dict_keys daily_pnls).
Proof.
  destruct (daily_pnl_is_sum_of_day sample_trades)
    as (d & E & G & Mi & K & _ & S).
  exists d. split; [exact E|]. split; [|split; [|split]].
  - apply G. cbn. auto.
  - apply Mi. cbn. intros [H | [H | [H | [H | [H | []]]]]]; discriminate H.
  - rewrite K. reflexivity.
  - apply S. cbn.
    repeat (constructor; [|repeat constructor; cbn; lia]). constructor.
Defined.

(** *** Python list indexing *)

Lemma py_index_nth {A} (l : list A) (i : Z) (d : A) :
  (0 <= i < Z.of_nat (length l))%Z ->
  py_index l i = Ok (nth (Z.to_nat i) l d).
Proof.
  intros [H0 H1]. unfold py_index.
  assert (E0 : (i <? 0)%Z = false) by (apply Z.ltb_ge; lia).
  assert (E1 : (0 <=? i)%Z = true) by (apply Z.leb_le; lia).
  assert (E2 : (i <? Z.of_nat (length l))%Z = true) by (apply Z.ltb_lt; lia).
  rewrite E0, E1, E2. cbn [andb].
  assert (Hlt : (Z.to_nat i < length l)%nat) by lia.
  rewrite (nth_error_nth' l d Hlt). reflexivity.
Qed.

Lemma py_index_last {A} (l : list A) (x d : A) :
  py_index (l ++ [x]) (-1) = Ok x.
Proof.
  unfold py_index. rewrite length_app. cbn [length].
  assert (E0 : (-1 <? 0)%Z = true) by reflexivity.
  rewrite E0.
  assert (E : (-1 + Z.of_nat (length l + 1) = Z.of_nat (length l))%Z) by lia.
  rewrite E.
  assert (E1 : (0 <=? Z.of_nat (length l))%Z = true) by (apply Z.leb_le; lia).
  assert (E2 : (Z.of_nat (length l) <? Z.of_nat (length l + 1))%Z = true)
    by (apply Z.ltb_lt; lia).
  rewrite E1, E2, Nat2Z.id. cbn [andb].
  rewrite nth_error_app2 by lia. rewrite Nat.sub_diag. reflexivity.
Qed.

(** *** The walk *)

Lemma keep_max_ge (m y : Q) : m <= keep_max m y /\ y <= keep_max m y.
Proof.
  unfold keep_max, Qgtb. destruct (Qltb m y) eqn:E.
  - apply Qltb_iff in E. split; [now apply Qlt_le_weak | apply Qle_refl].
  - apply Qltb_false_iff in E. split; [apply Qle_refl | exact E].
Qed.

Lemma walk_spec (daily_seq : list Q) :
  forall pre x pk dd,
    0 < pk ->
    exists pk',
      walk (mk_walk (pre ++ [x]) pk dd) daily_seq =
        Ok (mk_walk ((pre ++ [x]) ++ sums_from x daily_seq) pk'
                    (fold_left keep_max (dd_list pk x daily_seq) dd)) /\
      0 < pk'.
Proof.
  induction daily_seq as [|p rest IH]; intros pre x pk dd Hpk.
  - exists pk. cbn. rewrite app_nil_r. split; [reflexivity | exact Hpk].
  - cbn [walk]. unfold walk_step. cbn [equity peak drawdown].
    rewrite (py_index_last pre x 0).
    fold (keep_max pk (x + p)).
    assert (Hpk' : 0 < keep_max pk (x + p)).
    { eapply Qlt_le_trans; [exact Hpk | apply keep_max_ge]. }
    assert (Hz : Qeq_bool (keep_max pk (x + p)) 0 = false).
    { destruct (Qeq_bool (keep_max pk (x + p)) 0) eqn:E; [|reflexivity].
      apply Qeq_bool_iff in E. rewrite E in Hpk'.
      exfalso. exact (Qlt_irrefl _ Hpk'). }
    rewrite Hz.
    fold (keep_max dd ((keep_max pk (x + p) - (x + p)) / keep_max pk (x + p))).
    destruct (IH (pre ++ [x]) (x + p) (keep_max pk (x + p))
                 (keep_max dd ((keep_max pk (x + p) - (x + p))
                               / keep_max pk (x + p))) Hpk')
      as (pk' & E & Hpos).
    exists pk'. rewrite E. cbn [sums_from dd_list fold_left].
    rewrite <- !app_assoc. cbn [app]. split; [reflexivity | exact Hpos].
Qed.


Lemma last_sums_from (l : list Q) :
  forall x, last (x :: sums_from x l) 0 = fold_left Qplus l x.
Proof.
  induction l as [|p l IH]; intro x; [reflexivity|].
  cbn [sums_from fold_left]. rewrite <- IH. reflexivity.
Qed.

Lemma fold_plus_shift (l : list Q) :
  forall x, fold_left Qplus l x == x + fold_left Qplus l 0.
Proof.
  induction l as [|p l IH]; intro x; cbn [fold_left].
  - ring.
  - rewrite (IH (x + p)), (IH (0 + p)). ring.
Qed.

(** The walk of a trial from a positive starting equity: it does not
    raise, and its variables have the closed forms. *)
Lemma walk_from_start (starting_equity : Q) (daily_seq : list Q) :
  0 < starting_equity ->
  exists pk,
    walk (mk_walk [starting_equity] starting_equity 0) daily_seq =
      Ok (mk_walk (path_of starting_equity daily_seq) pk
                  (dd_of starting_equity daily_seq)).
Proof.
  intro H.
  destruct (walk_spec daily_seq [] starting_equity starting_equity 0 H)
    as (pk & E & _).
  exists pk. exact E.
Qed.

(** *** Drawing *)

Lemma draw_index_range (u : Q) (n : nat) :
  0 <= u -> u < 1 -> (0 < n)%nat ->
  (0 <= Qfloor (u * inject_Z (Z.of_nat n)) < Z.of_nat n)%Z.
Proof.
  intros H0 H1 Hn.
  assert (Hq : 0 < inject_Z (Z.of_nat n)).
  { change 0 with (inject_Z 0). rewrite <- Zlt_Qlt. lia. }
  split.
  - change 0%Z with (Qfloor 0). apply Qfloor_resp_le.
    apply Qmult_le_0_compat; [exact H0 | now apply Qlt_le_weak].
  - rewrite Zlt_Qlt.
    eapply Qle_lt_trans; [apply Qfloor_le|].
    setoid_replace (inject_Z (Z.of_nat n))
      with (1 * inject_Z (Z.of_nat n)) at 2 by ring.
    apply Qmult_lt_compat_r; assumption.
Qed.

Section Drawing.

Variable random : nat -> Q.
Hypothesis random_unit : forall n, 0 <= random n /\ random n < 1.

Lemma choices_loop_spec (population : list Q) (k : nat) :
  (k = 0 \/ 0 < length population)%nat ->
  forall calls,
    choices_loop random population
                 (inject_Z (Z.of_nat (length population))) k calls =
    Ok (map (fun i => nth (Z.to_nat (draw_index random (length population)
                                        calls i)) population 0)
            (seq 0 k)).
Proof.
  induction k as [|k IH]; intros Hk calls; [reflexivity|].
  destruct Hk as [Hk | Hk]; [discriminate|].
  cbn [choices_loop].
  destruct (random_unit calls) as [H0 H1].
  rewrite (py_index_nth population _ 0)
    by (apply draw_index_range; assumption).
  rewrite (IH (or_intror Hk) (S calls)).
  cbn [seq map]. f_equal. f_equal.
  - unfold draw_index. now rewrite Nat.add_0_r.
  - rewrite <- seq_shift, map_map.
    apply map_ext. intro i. unfold draw_index.
    now rewrite Nat.add_succ_comm.
Qed.


(** One trial from a positive starting equity. *)
Lemma trial_spec (pnl_sequence : list Q) (starting_equity : Q)
    (acc : Results) (calls : nat) :
  0 < starting_equity ->
  let ds := draws random pnl_sequence calls in
  trial random pnl_sequence starting_equity acc calls =
  Ok (mk_results
        (final_equities acc ++ [fold_left Qplus ds starting_equity])
        (max_drawdowns acc ++ [dd_of starting_equity ds * 100])
        (all_curves acc ++ [path_of starting_equity ds]),
      (calls + length pnl_sequence)%nat).
Proof.
  intros Hs ds. unfold trial, choices.
  rewrite choices_loop_spec
    by (destruct pnl_sequence; [left; reflexivity | right; cbn; lia]).
  fold (draws random pnl_sequence calls). fold ds.
  destruct (walk_from_start starting_equity ds Hs) as (pk & ->).
  cbn [equity drawdown].
  assert (E : py_index (path_of starting_equity ds) (-1)
              = Ok (fold_left Qplus ds starting_equity)).
  { rewrite <- last_sums_from. unfold path_of.
    destruct (exists_last
                (l := starting_equity :: sums_from starting_equity ds))
      as (l' & x & El); [discriminate|].
    rewrite El, last_last. apply py_index_last. exact 0. }
  rewrite E. reflexivity.
Qed.

Lemma trials_spec (pnl_sequence : list Q) (starting_equity : Q) (m : nat) :
  0 < starting_equity ->
  forall acc calls,
    trials random m pnl_sequence starting_equity acc calls =
    Ok (mk_results
          (final_equities acc ++
           map (fun k => fold_left Qplus (trial_draws random pnl_sequence calls k)
                                   starting_equity) (seq 0 m))
          (max_drawdowns acc ++
           map (fun k => dd_of starting_equity
                               (trial_draws random pnl_sequence calls k) * 100)
               (seq 0 m))
          (all_curves acc ++
           map (fun k => path_of starting_equity
                                 (trial_draws random pnl_sequence calls k))
               (seq 0 m)),
        (calls + m * length pnl_sequence)%nat).
Proof.
  intro Hs. induction m as [|m IH]; intros acc calls.
  - cbn. rewrite !app_nil_r, Nat.add_0_r. now destruct acc.
  - cbn [trials]. rewrite trial_spec by exact Hs. cbv zeta.
    rewrite IH. cbn [final_equities max_drawdowns all_curves].
    rewrite <- !app_assoc. cbn [app seq map].
    rewrite <- !seq_shift, !map_map.
    assert (E0 : trial_draws random pnl_sequence calls 0
                 = draws random pnl_sequence calls).
    { unfold trial_draws. f_equal. cbn [Nat.mul]. lia. }
    assert (E : forall k, trial_draws random pnl_sequence
                            (calls + length pnl_sequence) k
                          = trial_draws random pnl_sequence calls (S k)).
    { intro k. unfold trial_draws. f_equal. cbn [Nat.mul]. lia. }
    rewrite E0.
    apply f_equal. apply f_equal2; [|cbn [Nat.mul]; lia].
    apply f_equal3; apply f_equal; (apply f_equal2; [reflexivity|]);
      apply map_ext; intro k; now rewrite E.
Qed.

Lemma simulate_spec (pnl_sequence : list Q) (simulations : Z)
    (starting_equity : Q) :
  0 < starting_equity ->
  simulate random pnl_sequence simulations starting_equity =
  Ok (mk_results
        (map (fun k => fold_left Qplus (trial_draws random pnl_sequence 0 k)
                                starting_equity)
             (seq 0 (Z.to_nat simulations)))
        (map (fun k => dd_of starting_equity
                             (trial_draws random pnl_sequence 0 k) * 100)
             (seq 0 (Z.to_nat simulations)))
        (map (fun k => path_of starting_equity
                               (trial_draws random pnl_sequence 0 k))
             (seq 0 (Z.to_nat simulations)))).
Proof.
  intro Hs. unfold simulate. rewrite trials_spec by exact Hs. reflexivity.
Qed.

End Drawing.

Lemma nth_error_map_seq {A} (f : nat -> A) (m k : nat) :
  (k < m)%nat -> nth_error (map f (seq 0 m)) k = Some (f k).
Proof.
  intro H. rewrite nth_error_map, nth_error_seq.
  apply Nat.ltb_lt in H. rewrite H. reflexivity.
Qed.

Lemma draws_length (random : nat -> Q) (pnl_sequence : list Q)
    (calls : nat) :
  length (draws random pnl_sequence calls) = length pnl_sequence.
Proof. unfold draws. now rewrite length_map, length_seq. Qed.





Lemma sample_random_unit :
  forall n, 0 <= sample_random n /\ sample_random n < 1.
Proof.
  intro n. unfold sample_random, Qle, Qlt. cbn [Qnum Qden].
  pose proof (Nat.mod_upper_bound n 7). lia.
Qed.



(** *** Drawdown *)

Lemma keep_max_compat (a b y : Q) : a == b -> keep_max a y == keep_max b y.
Proof.
  intro E. unfold keep_max, Qgtb, Qltb. rewrite E.
  destruct (Qle_bool y b); [exact E | reflexivity].
Qed.

Lemma fold_keep_max_compat (l : list Q) :
  forall a b, a == b -> fold_left keep_max l a == fold_left keep_max l b.
Proof.
  induction l as [|y l IH]; intros a b E; cbn [fold_left]; [exact E|].
  apply IH. now apply keep_max_compat.
Qed.

Lemma fold_keep_max_ge (l : list Q) :
  forall a, a <= fold_left keep_max l a.
Proof.
  induction l as [|y l IH]; intro a; cbn [fold_left]; [apply Qle_refl|].
  eapply Qle_trans; [|apply IH]. apply keep_max_ge.
Qed.

Lemma keep_max_self (x : Q) : keep_max x x = x.
Proof. unfold keep_max. now destruct (Qgtb x x). Qed.

Lemma peaks_dd_list (l : list Q) :
  forall pk x,
    map (fun '(pk, e) => (pk - e) / pk)
        (combine (running_peaks pk (sums_from x l)) (sums_from x l))
    = dd_list pk x l.
Proof.
  induction l as [|p l IH]; intros pk x; [reflexivity|].
  cbn [sums_from running_peaks combine map dd_list].
  fold (keep_max pk (x + p)). now rewrite IH.
Qed.

(** The drawdown the walk keeps is the maximum the specification words. *)
Lemma dd_of_is_spec (starting_equity : Q) (daily_seq : list Q) :
  dd_of starting_equity daily_seq
  == spec_max_drawdown (path_of starting_equity daily_seq).
Proof.
  unfold spec_max_drawdown, drawdown_fractions, path_of.
  cbn [running_peaks combine map].
  fold (keep_max starting_equity starting_equity).
  rewrite keep_max_self, peaks_dd_list.
  cbn [Qmax_list]. unfold dd_of.
  change (fun m y : Q => if Qgtb y m then y else m) with keep_max.
  apply fold_keep_max_compat. unfold Qdiv. ring.
Qed.

Lemma non_decreasing_gains (l : list Q) :
  forall x, non_decreasing (x :: sums_from x l) -> Forall (fun p => 0 <= p) l.
Proof.
  induction l as [|p l IH]; intros x H; [constructor|].
  cbn [sums_from] in H. destruct H as [Hle Hrest].
  constructor; [lra | now apply (IH (x + p))].
Qed.

(** A walk that never steps down keeps its drawdown at 0.0. *)
Lemma dd_list_rising (l : list Q) :
  forall pk x,
    pk == x -> Forall (fun p => 0 <= p) l ->
    fold_left keep_max (dd_list pk x l) 0 = 0.
Proof.
  induction l as [|p l IH]; intros pk x E Hl; [reflexivity|].
  inversion Hl as [|? ? Hp Hl']; subst.
  cbn [dd_list fold_left].
  assert (Epk : keep_max pk (x + p) == x + p).
  { unfold keep_max, Qgtb. destruct (Qltb pk (x + p)) eqn:C.
    - reflexivity.
    - apply Qltb_false_iff in C. apply Qle_antisym; lra. }
  set (d := (keep_max pk (x + p) - (x + p)) / keep_max pk (x + p)).
  assert (Edd : d == 0).
  { unfold d, Qdiv. rewrite Epk. ring. }
  clearbody d.
  assert (E0 : keep_max 0 d = 0).
  { unfold keep_max, Qgtb.
    destruct (Qltb 0 d) eqn:C; [|reflexivity].
    apply Qltb_iff in C. rewrite Edd in C.
    exfalso. exact (Qlt_irrefl _ C). }
  rewrite E0. now apply IH.
Qed.

Lemma draws_gains (random : nat -> Q) (pnl_sequence : list Q)
    (calls : nat) :
  Forall (fun p => 0 <= p) pnl_sequence ->
  Forall (fun p => 0 <= p) (draws random pnl_sequence calls).
Proof.
  intro H. unfold draws. apply Forall_forall. intros x Hx.
  apply in_map_iff in Hx. destruct Hx as (i & <- & _).
  destruct (nth_in_or_default
              (Z.to_nat (draw_index random (length pnl_sequence) calls i))
              pnl_sequence 0) as [Hin | ->].
  - rewrite Forall_forall in H. now apply H.
  - apply Qle_refl.
Qed.

(** C4. From a positive starting equity every trial reports 100 times a
    drawdown fraction that equals the maximum over its equity path of
    (running peak - equity) / running peak; the fraction and the reported
    percentage are never negative, and both are 0 when the path never steps
    down, as with a daily sequence without losses such as
    [100, 100, 100]. *)
Theorem max_drawdown_of_trials (random : nat -> Q)
    (random_unit : forall n, 0 <= random n /\ random n < 1)
    (pnl_sequence : list Q) (simulations : Z) (starting_equity : Q)
    (positive_start : 0 < starting_equity) :
  exists r,
    simulate random pnl_sequence simulations starting_equity = Ok r /\
    length (max_drawdowns r) = Z.to_nat simulations /\
    forall k, (k < Z.to_nat simulations)%nat ->
      exists curve dd,
        nth_error (all_curves r) k = Some curve /\
        nth_error (max_drawdowns r) k = Some (dd * 100) /\
        dd == spec_max_drawdown curve /\
        0 <= dd /\
        0 <= dd * 100 /\
        (non_decreasing curve -> dd = 0 /\ dd * 100 = 0) /\
        (Forall (fun p => 0 <= p) pnl_sequence -> dd = 0 /\ dd * 100 = 0).
Proof.
  eexists. split; [apply simulate_spec; assumption|].
  cbn [all_curves max_drawdowns].
  rewrite !length_map, !length_seq. split; [reflexivity|].
  intros k Hk.
  set (ds := trial_draws random pnl_sequence 0 k).
  exists (path_of starting_equity ds), (dd_of starting_equity ds).
  split; [now rewrite nth_error_map_seq by exact Hk|].
  split; [now rewrite nth_error_map_seq by exact Hk|].
  split; [apply dd_of_is_spec|].
  assert (Hnn : 0 <= dd_of starting_equity ds)
    by (unfold dd_of; apply fold_keep_max_ge).
  split; [exact Hnn|]. split.
  { apply Qmult_le_0_compat; [exact Hnn | discriminate]. }
  assert (Hz : Forall (fun p => 0 <= p) ds ->
               dd_of starting_equity ds = 0 /\
               dd_of starting_equity ds * 100 = 0).
  { intro Hg. unfold dd_of.
    rewrite (dd_list_rising ds starting_equity starting_equity)
      by (reflexivity || exact Hg).
    split; reflexivity. }
  split.
  - intro Hm. apply Hz. now apply (non_decreasing_gains ds starting_equity).
  - intro Hg. apply Hz. unfold ds, trial_draws. now apply draws_gains.
Qed.

Lemma rising_pnl_gains : Forall (fun p => 0 <= p) rising_pnl.
Proof. repeat constructor; discriminate. Qed.

Lemma max_drawdown_of_trials_witness :
  exists r,
    simulate sample_random rising_pnl SIMULATIONS STARTING_EQUITY = Ok r /\
    length (max_drawdowns r) = 1000%nat /\
    forall k, (k < 1000)%nat -> nth_error (max_drawdowns r) k = Some 0.
Proof.
  destruct (max_drawdown_of_trials sample_random sample_random_unit
              rising_pnl SIMULATIONS STARTING_EQUITY eq_refl)
    as (r & E & L & T).
  exists r. split; [exact E|]. split; [exact L|].
  intros k Hk.
  destruct (T k) as (curve & dd & _ & D & _ & _ & _ & _ & Z0).
  { change (Z.to_nat SIMULATIONS) with 1000%nat. exact Hk. }
  destruct (Z0 rising_pnl_gains) as [_ E100].
  rewrite D, E100. reflexivity.
Defined.

(** C8, as the code has it.  The script validates nothing before the
    trial loop.  On an empty daily sequence every trial draws no value and
    walks nothing: the run succeeds with, per trial, the path
    [[starting_equity]], the final equity [starting_equity] and the
    drawdown 0; with a trial count of zero or less the loop body never runs
    and the three result lists stay empty. *)
Theorem simulate_degenerate_input (random : nat -> Q)
    (starting_equity : Q) :
  (forall simulations,
      simulate random [] simulations starting_equity =
      Ok (mk_results (repeat starting_equity (Z.to_nat simulations))
                     (repeat 0 (Z.to_nat simulations))
                     (repeat [starting_equity] (Z.to_nat simulations)))) /\
  (forall pnl_sequence simulations,
      (simulations <= 0)%Z ->
      simulate random pnl_sequence simulations starting_equity =
      Ok (mk_results [] [] [])).
Proof.
  split.
  - intro simulations. unfold simulate.
    assert (H : forall m acc calls,
               trials random m [] starting_equity acc calls =
               Ok (mk_results
                     (final_equities acc ++ repeat starting_equity m)
                     (max_drawdowns acc ++ repeat 0 m)
                     (all_curves acc ++ repeat [starting_equity] m),
                   calls)).
    { induction m as [|m IH]; intros acc calls.
      - cbn. rewrite !app_nil_r. now destruct acc.
      - cbn [trials]. unfold trial, choices. cbn [length choices_loop walk].
        cbn [equity drawdown].
        change (py_index [starting_equity] (-1)) with (Ok starting_equity).
        cbv iota. rewrite Nat.add_0_r, IH.
        cbn [final_equities max_drawdowns all_curves repeat].
        rewrite <- !app_assoc. reflexivity. }
    rewrite H. reflexivity.
  - intros pnl_sequence simulations Hle. unfold simulate.
    replace (Z.to_nat simulations) with 0%nat by lia. reflexivity.
Qed.

Lemma simulate_degenerate_input_witness :
  simulate sample_random sample_pnl (-3) STARTING_EQUITY
    = Ok (mk_results [] [] []).
Proof.
  destruct (simulate_degenerate_input sample_random STARTING_EQUITY)
    as [_ H].
  apply H. discriminate.
Defined.

(** C8, counterexample.  The script run on no closed trade at all: the
    daily sequence is empty, nothing is raised, and the simulation returns
    its 1000 trials, each the one-point path [[5000]]. *)
Lemma empty_sequence_is_simulated :
  daily_pnls_of [] = Ok [] /\
  dict_values [] = [] /\
  main_analysis sample_random []
    = Ok (mk_results (repeat 5000 1000) (repeat 0 1000)
                     (repeat [5000] 1000)) /\
  (forall e, main_analysis sample_random [] <> Raise e).
Proof.
  assert (E : main_analysis sample_random []
              = Ok (mk_results (repeat 5000 1000) (repeat 0 1000)
                               (repeat [5000] 1000)))
    by (vm_compute; reflexivity).
  split; [reflexivity|]. split; [reflexivity|]. split; [exact E|].
  intros e H. rewrite E in H. discriminate H.
Qed.

End MonteCarloFacts.

(** * Further properties of the strategy *)

Module StrategyExtras.
Import Strategy Feed StrategyFacts.

Lemma step_same_day_keeps (p : Params) (s : State) (o : Obs) (s' : State)
    (t : list Action) :
  current_day s = Some (dt_date o) -> step p s o = Ok (s', t) ->
  daily_realized_pnl s' = daily_realized_pnl s /\
  current_day s' = current_day s /\
  start_day_value s' = start_day_value s.
Proof.
  intros Hd Hs. destruct (step_inv _ _ _ _ _ Hs) as (body & _ & HP).
  assert (E : after_day_logic s o = s).
  { unfold after_day_logic. now rewrite (same_day_not_new _ _ Hd). }
  inversion HP; subst; rewrite ?E; repeat split; reflexivity.
Qed.

Lemma notify_trade_effect (c : bool) (pnl : Q) (s : State) :
  run_handler (notify_trade c pnl) s =
  Ok (if c then set_daily_realized_pnl (daily_realized_pnl s + pnl) s else s,
      if c then [ALog MTradeClosed] else []).
Proof. destruct c; reflexivity. Qed.

(** X1. Within one day the realized result is the running sum of the
    closed trades: over any stream whose bars all belong to the current
    day, [daily_realized_pnl] ends as its starting value plus, in order,
    the net result of every notification of a closed trade; notifications
    of trades still open and the bars themselves leave it alone. *)
Theorem realized_pnl_accumulates (p : Params) (d : Z) (evs : list Event) :
  forall s s' ts,
    run p s evs = Ok (s', ts) ->
    current_day s = Some d ->
    (forall o, In (EvNext o) evs -> dt_date o = d) ->
    daily_realized_pnl s' =
      fold_left Qplus (closed_pnls evs) (daily_realized_pnl s) /\
    current_day s' = Some d.
Proof.
  induction evs as [|e evs IH]; intros s s' ts Hr Hd Hall.
  - inversion Hr; subst. split; [reflexivity | exact Hd].
  - cbn [run] in Hr.
    destruct (handle p s e) as [[s1 t]|] eqn:He; [|discriminate].
    destruct (run p s1 evs) as [[s2 ts']|] eqn:Hr'; [|discriminate].
    inversion Hr; subst.
    assert (Hall' : forall o, In (EvNext o) evs -> dt_date o = d)
      by (intros o Ho; apply Hall; now right).
    destruct e as [c pnl | o]; cbn [handle] in He.
    + rewrite notify_trade_effect in He. inversion He; subst.
      destruct c.
      * destruct (IH _ _ _ Hr' Hd Hall') as [E1 E2].
        split; [exact E1 | exact E2].
      * destruct (IH _ _ _ Hr' Hd Hall') as [E1 E2].
        split; [exact E1 | exact E2].
    + assert (Ho : dt_date o = d) by (apply Hall; now left).
      assert (Hd' : current_day s = Some (dt_date o)) by congruence.
      destruct (step_same_day_keeps _ _ _ _ _ Hd' He) as (K1 & K2 & _).
      destruct (IH _ _ _ Hr' (eq_trans K2 Hd) Hall') as [E1 E2].
      split; [|exact E2]. cbn [closed_pnls flat_map app].
      fold (closed_pnls evs). now rewrite E1, K1.
Qed.

Lemma realized_pnl_accumulates_witness :
  daily_realized_pnl
    (set_daily_realized_pnl (0 + -40 + 15)
       (set_highest_high (py_max 5010 5012) Examples.s_long))
    = fold_left Qplus (closed_pnls Examples.stream_trades)
        (daily_realized_pnl Examples.s_long) /\
  current_day
    (set_daily_realized_pnl (0 + -40 + 15)
       (set_highest_high (py_max 5010 5012) Examples.s_long))
    = Some Examples.day1.
Proof.
  apply (realized_pnl_accumulates default_params Examples.day1
           Examples.stream_trades Examples.s_long _
           [[ALog MTradeClosed]; []; []; [ALog MTradeClosed]]).
  - reflexivity.
  - reflexivity.
  - intros o [H | [H | [H | [H | []]]]]; inversion H; subst; reflexivity.
Defined.

(** X2. The day bookkeeping of [next].  After every bar [current_day] is
    that bar's date.  On the first bar of a new date the realized result
    restarts at 0 and [start_day_value] becomes the broker value read on
    that bar; on a bar of the current day all three attributes are left as
    they were. *)
Theorem day_bookkeeping (p : Params) (s : State) (o : Obs) (s' : State)
    (t : list Action) :
  step p s o = Ok (s', t) ->
  current_day s' = Some (dt_date o) /\
  (is_new_day s o = true ->
   daily_realized_pnl s' = 0 /\
   start_day_value s' = Some (broker_value o) /\
   logged MStartOfDay t = true) /\
  (is_new_day s o = false ->
   daily_realized_pnl s' = daily_realized_pnl s /\
   start_day_value s' = start_day_value s /\
   logged MStartOfDay t = false).
Proof.
  intro Hs. destruct (step_inv _ _ _ _ _ Hs) as (body & -> & HP).
  pose proof (after_day_logic_day s o) as Hd.
  rewrite logged_app.
  assert (Hb : logged MStartOfDay body = false).
  { inversion HP; subst; try reflexivity.
    destruct (has_position o); reflexivity. }
  rewrite Hb, orb_false_r.
  assert (F1 : is_new_day s o = true ->
               daily_realized_pnl (after_day_logic s o) = 0 /\
               start_day_value (after_day_logic s o)
                 = Some (broker_value o)).
  { intro Hn. unfold after_day_logic. rewrite Hn. split; reflexivity. }
  assert (F2 : is_new_day s o = false -> after_day_logic s o = s).
  { intro Hn. unfold after_day_logic. now rewrite Hn. }
  split; [inversion HP; subst; exact Hd|].
  split; intro Hn; unfold day_trace; rewrite Hn.
  - destruct (F1 Hn) as [A B].
    inversion HP; subst;
      cbn [daily_realized_pnl start_day_value set_trading_halted
           set_highest_high set_lowest_low];
      rewrite A, B; repeat split; reflexivity.
  - pose proof (F2 Hn) as A.
    inversion HP; subst;
      cbn [daily_realized_pnl start_day_value set_trading_halted
           set_highest_high set_lowest_low];
      rewrite A; repeat split; reflexivity.
Qed.

Lemma day_bookkeeping_witness :
  current_day
    (set_highest_high 5010 (after_day_logic init Examples.bar_entry))
    = Some (dt_date Examples.bar_entry) /\
  (is_new_day init Examples.bar_entry = true ->
   daily_realized_pnl
     (set_highest_high 5010 (after_day_logic init Examples.bar_entry)) = 0 /\
   start_day_value
     (set_highest_high 5010 (after_day_logic init Examples.bar_entry))
     = Some (broker_value Examples.bar_entry) /\
   logged MStartOfDay [ALog MStartOfDay; ALog MFirstBarLong; ABuy 1] = true)
  /\
  (is_new_day init Examples.bar_entry = false ->
   daily_realized_pnl
     (set_highest_high 5010 (after_day_logic init Examples.bar_entry))
     = daily_realized_pnl init /\
   start_day_value
     (set_highest_high 5010 (after_day_logic init Examples.bar_entry))
     = start_day_value init /\
   logged MStartOfDay [ALog MStartOfDay; ALog MFirstBarLong; ABuy 1]
     = false).
Proof.
  exact (day_bookkeeping default_params init Examples.bar_entry
           (set_highest_high 5010 (after_day_logic init Examples.bar_entry))
           [ALog MStartOfDay; ALog MFirstBarLong; ABuy 1] eq_refl).
Defined.

(** X3. The estimate of the open result that the loss test uses is the
    move of the close from the position's price, times the contract
    multiplier, times the signed position size: a gain for a long when the
    close is above the price, for a short when it is below, and 0 when
    flat. *)
Theorem unrealized_pnl_closed_form (p : Params) (o : Obs) :
  unrealized_pnl p o ==
  (dataclose o - position_price o) * multiplier p
  * inject_Z (position_size o).
Proof.
  unfold unrealized_pnl, has_position.
  destruct (position_size o =? 0)%Z eqn:Ez; cbn [negb].
  - apply Z.eqb_eq in Ez. rewrite Ez. ring.
  - apply Z.eqb_neq in Ez.
    destruct (position_size o <? 0)%Z eqn:En.
    + apply Z.ltb_lt in En.
      rewrite (Z.abs_neq (position_size o)) by lia.
      rewrite inject_Z_opp. ring.
    + apply Z.ltb_ge in En.
      rewrite (Z.abs_eq (position_size o)) by lia. ring.
Qed.

(** X4. The daily loss test is strict.  A bar logs the loss limit exactly
    when trading is not already halted for its day and realized plus
    estimated open result is below minus the limit; a loss equal to the
    limit does not halt.  When it fires, the bar's only order is [close],
    the strategy is halted, and neither an entry nor a reversal is made nor
    an extreme touched, whatever the time of the bar. *)
Theorem loss_limit_is_strict (p : Params) (s : State) (o : Obs)
    (s' : State) (t : list Action) :
  step p s o = Ok (s', t) ->
  (logged MDailyLossHit t = true <->
   trading_halted (after_day_logic s o) = false /\
   total_daily_pnl p (after_day_logic s o) o < - daily_loss_limit p) /\
  (total_daily_pnl p (after_day_logic s o) o == - daily_loss_limit p ->
   logged MDailyLossHit t = false) /\
  (logged MDailyLossHit t = true ->
   orders t = [AClose] /\ trading_halted s' = true /\
   is_entry t = false /\ reversals t = 0%nat /\
   highest_high s' = highest_high s /\ lowest_low s' = lowest_low s).
Proof.
  intro Hs. destruct (step_inv _ _ _ _ _ Hs) as (body & -> & HP).
  destruct (after_day_logic_extremes s o) as [Ehh Ell].
  rewrite logged_loss_day, orders_day, is_entry_day, reversals_day.
  assert (Hbr : breach p s o = true <->
                total_daily_pnl p (after_day_logic s o) o
                < - daily_loss_limit p)
    by (unfold breach; apply Qltb_iff).
  assert (Hno : forall b, Path p s o s' b ->
                  logged MDailyLossHit b = true ->
                  b = [ALog MDailyLossHit; AClose] /\
                  trading_halted (after_day_logic s o) = false /\
                  breach p s o = true /\
                  s' = set_trading_halted true (after_day_logic s o)).
  { intros b Hb Hl. inversion Hb; subst; try discriminate Hl;
      try (destruct (has_position o); discriminate Hl).
    repeat split; assumption. }
  split; [split|split].
  - intro Hl. destruct (Hno _ HP Hl) as (_ & Hh & Hb & _).
    split; [exact Hh | now apply Hbr].
  - intros [Hh Hlt]. apply Hbr in Hlt.
    inversion HP; subst; try reflexivity; management_gates; congruence.
  - intro Heq.
    destruct (logged MDailyLossHit body) eqn:Hl; [|reflexivity].
    destruct (Hno _ HP Hl) as (_ & _ & Hb & _). apply Hbr in Hb.
    rewrite Heq in Hb. exfalso. exact (Qlt_irrefl _ Hb).
  - intro Hl. destruct (Hno _ HP Hl) as (-> & _ & _ & ->).
    cbn. rewrite Ehh, Ell. repeat split; reflexivity.
Qed.

Lemma loss_limit_is_strict_witness :
  (logged MDailyLossHit [] = true <->
   trading_halted (after_day_logic Examples.s_long Examples.bar_at_limit)
     = false /\
   total_daily_pnl default_params
     (after_day_logic Examples.s_long Examples.bar_at_limit)
     Examples.bar_at_limit < - daily_loss_limit default_params) /\
  (total_daily_pnl default_params
     (after_day_logic Examples.s_long Examples.bar_at_limit)
     Examples.bar_at_limit == - daily_loss_limit default_params ->
   logged MDailyLossHit [] = false).
Proof.
  destruct (loss_limit_is_strict default_params Examples.s_long
              Examples.bar_at_limit
              (set_highest_high (py_max 5010 4955) Examples.s_long) []
              eq_refl) as (A & B & _).
  split; [exact A | exact B].
Defined.

(** X5. Yesterday does not carry over.  On the first bar of a new date,
    flat and with a loss limit that is not negative, [next] does not raise,
    does not log the loss limit and leaves the strategy unhalted with a
    realized result of 0, whatever was halted or lost before. *)
Theorem new_day_starts_unhalted (p : Params) (s : State) (o : Obs) :
  0 <= daily_loss_limit p ->
  is_new_day s o = true ->
  position_size o = 0%Z ->
  exists s' t,
    step p s o = Ok (s', t) /\
    trading_halted s' = false /\
    daily_realized_pnl s' = 0 /\
    logged MDailyLossHit t = false.
Proof.
  intros Hl Hn Hz.
  assert (E : after_day_logic s o =
              mk_state (Some (dt_date o)) (Some (broker_value o))
                       (highest_high s) (lowest_low s) false 0)
    by (unfold after_day_logic; now rewrite Hn).
  assert (Hb : breach p s o = false).
  { unfold breach, total_daily_pnl, unrealized_pnl, has_position.
    rewrite E, Hz. cbn [daily_realized_pnl Z.eqb negb].
    apply Qltb_false_iff. lra. }
  rewrite step_unfold. cbv zeta. rewrite E in *. cbn [trading_halted].
  rewrite Hb.
  unfold day_trace. rewrite Hn.
  destruct (time_geb (dt_time o) market_close).
  { unfold has_position. rewrite Hz. cbn [Z.eqb negb].
    do 2 eexists. split; [reflexivity|]. repeat split. }
  destruct (time_eqb (dt_time o) first_bar_close).
  { rewrite first_bar_entry_unfold. unfold has_position. rewrite Hz.
    cbn [Z.eqb negb].
    destruct (Qgtb (dataclose o) (dataopen o));
      do 2 eexists; (split; [reflexivity|]); repeat split. }
  rewrite trade_management_flat by exact Hz.
  do 2 eexists. split; [reflexivity|]. repeat split.
Qed.

Lemma new_day_starts_unhalted_witness :
  exists s' t,
    step default_params Examples.s_halted_yesterday Examples.bar_entry
      = Ok (s', t) /\
    trading_halted s' = false /\
    daily_realized_pnl s' = 0 /\
    logged MDailyLossHit t = false.
Proof.
  apply (new_day_starts_unhalted default_params Examples.s_halted_yesterday
           Examples.bar_entry).
  - discriminate.
  - reflexivity.
  - reflexivity.
Defined.

(** X6. What one bar can order.  The orders of a bar are none, a lone
    [close], a lone [buy] or [sell] (the entry), or [close] followed by the
    opposite [sell] or [buy] (a reversal); every [buy] and [sell] is for
    [fixed_size], and no bar makes more than two orders. *)
Theorem orders_of_a_bar (p : Params) (s : State) (o : Obs) (s' : State)
    (t : list Action) :
  step p s o = Ok (s', t) ->
  orders t = [] \/
  orders t = [AClose] \/
  orders t = [ABuy (fixed_size p)] \/
  orders t = [ASell (fixed_size p)] \/
  orders t = [AClose; ASell (fixed_size p)] \/
  orders t = [AClose; ABuy (fixed_size p)].
Proof.
  intro Hs. destruct (step_inv _ _ _ _ _ Hs) as (body & -> & HP).
  rewrite orders_day.
  inversion HP; subst; cbn; try (destruct (has_position o); cbn); tauto.
Qed.

Lemma orders_of_a_bar_witness :
  orders [ALog (MReversalLongShort TrailingStop); AClose; ASell 1] = [] \/
  orders [ALog (MReversalLongShort TrailingStop); AClose; ASell 1]
    = [AClose] \/
  orders [ALog (MReversalLongShort TrailingStop); AClose; ASell 1]
    = [ABuy (fixed_size default_params)] \/
  orders [ALog (MReversalLongShort TrailingStop); AClose; ASell 1]
    = [ASell (fixed_size default_params)] \/
  orders [ALog (MReversalLongShort TrailingStop); AClose; ASell 1]
    = [AClose; ASell (fixed_size default_params)] \/
  orders [ALog (MReversalLongShort TrailingStop); AClose; ASell 1]
    = [AClose; ABuy (fixed_size default_params)].
Proof.
  exact (orders_of_a_bar default_params Examples.s_long Examples.bar_stop
           (set_lowest_low 4998
              (set_highest_high (py_max 5010 5013) Examples.s_long))
           [ALog (MReversalLongShort TrailingStop); AClose; ASell 1]
           eq_refl).
Defined.

(** X7. The forced exit.  On a bar at or after 15:45 the strategy never
    buys or sells, makes no entry and no reversal and leaves both extremes
    alone; it logs the market close exactly when it is not halted, the
    loss limit holds and a position is open, and then its only order is
    [close]. *)
Theorem close_window_only_flattens (p : Params) (s : State) (o : Obs)
    (s' : State) (t : list Action) :
  time_geb (dt_time o) market_close = true ->
  step p s o = Ok (s', t) ->
  opening_orders t = [] /\ is_entry t = false /\ reversals t = 0%nat /\
  highest_high s' = highest_high s /\ lowest_low s' = lowest_low s /\
  (logged MMarketClose t = true <->
   trading_halted (after_day_logic s o) = false /\ breach p s o = false /\
   position_size o <> 0%Z) /\
  (logged MMarketClose t = true -> orders t = [AClose]).
Proof.
  intros Hc Hs. destruct (step_inv _ _ _ _ _ Hs) as (body & -> & HP).
  destruct (after_day_logic_extremes s o) as [Ehh Ell].
  rewrite opening_orders_day, is_entry_day, reversals_day, orders_day,
    logged_app.
  assert (Hd : logged MMarketClose (day_trace s o) = false)
    by (unfold day_trace; destruct (is_new_day s o); reflexivity).
  rewrite Hd. cbn [orb].
  inversion HP; subst; management_gates; try congruence.
  - repeat split; auto; try discriminate. intros (? & _). congruence.
  - repeat split; auto; try discriminate. intros (_ & ? & _). congruence.
  - unfold has_position.
    destruct (position_size o =? 0)%Z eqn:Ez; cbn [negb].
    + apply Z.eqb_eq in Ez. repeat split; auto; try discriminate.
      intros (_ & _ & ?). contradiction.
    + apply Z.eqb_neq in Ez. repeat split; auto.
Qed.

Lemma close_window_only_flattens_witness :
  opening_orders [ALog MMarketClose; AClose] = [] /\
  is_entry [ALog MMarketClose; AClose] = false /\
  reversals [ALog MMarketClose; AClose] = 0%nat /\
  highest_high Examples.s_long = highest_high Examples.s_long /\
  lowest_low Examples.s_long = lowest_low Examples.s_long /\
  (logged MMarketClose [ALog MMarketClose; AClose] = true <->
   trading_halted
     (after_day_logic Examples.s_long Examples.bar_close_window) = false /\
   breach default_params Examples.s_long Examples.bar_close_window = false /\
   position_size Examples.bar_close_window <> 0%Z) /\
  (logged MMarketClose [ALog MMarketClose; AClose] = true ->
   orders [ALog MMarketClose; AClose] = [AClose]).
Proof.
  exact (close_window_only_flattens default_params Examples.s_long
           Examples.bar_close_window Examples.s_long
           [ALog MMarketClose; AClose] eq_refl eq_refl).
Defined.

(** X8. The 09:35 bar is for entries only.  When a position is already
    open on it (not halted, loss limit holding), [next] returns after the
    entry test without reaching the trade management: nothing is ordered or
    logged beyond the day's start, and no extreme is updated, whatever the
    bar's prices and volume. *)
Theorem entry_bar_skips_management (p : Params) (s : State) (o : Obs) :
  dt_time o = time_hm 9 35 ->
  position_size o <> 0%Z ->
  trading_halted (after_day_logic s o) = false ->
  breach p s o = false ->
  step p s o = Ok (after_day_logic s o, day_trace s o) /\
  highest_high (after_day_logic s o) = highest_high s /\
  lowest_low (after_day_logic s o) = lowest_low s.
Proof.
  intros Ht Hz Hh Hb.
  assert (Hc : time_geb (dt_time o) market_close = false)
    by (rewrite Ht; reflexivity).
  assert (He : time_eqb (dt_time o) first_bar_close = true)
    by (rewrite Ht; reflexivity).
  split; [|apply after_day_logic_extremes].
  rewrite (step_of_path _ _ _ _ _ (PEntrySkipped p s o Hh Hb Hc He Hz)).
  now rewrite app_nil_r.
Qed.

Lemma entry_bar_skips_management_witness :
  step default_params Examples.s_long Examples.bar_entry_held
    = Ok (after_day_logic Examples.s_long Examples.bar_entry_held,
          day_trace Examples.s_long Examples.bar_entry_held) /\
  highest_high (after_day_logic Examples.s_long Examples.bar_entry_held)
    = highest_high Examples.s_long /\
  lowest_low (after_day_logic Examples.s_long Examples.bar_entry_held)
    = lowest_low Examples.s_long.
Proof.
  apply (entry_bar_skips_management default_params Examples.s_long
           Examples.bar_entry_held).
  - reflexivity.
  - discriminate.
  - reflexivity.
  - reflexivity.
Defined.

(** X9. The only exception of [next].  A bar raises exactly when it reaches
    the trade management with a position whose extreme was never set (long
    with [highest_high] still [None], short with [lowest_low] still
    [None]), and the exception is the [TypeError] of comparing a float with
    [None]; in every other case [next] returns. *)
Theorem next_raises_only_on_unset_extreme (p : Params) (s : State)
    (o : Obs) (e : exn) :
  step p s o = Raise e <->
  e = TypeError /\ reaches_management p s o = true /\
  (((0 < position_size o)%Z /\ highest_high s = None) \/
   ((position_size o < 0)%Z /\ lowest_low s = None)).
Proof.
  destruct (after_day_logic_extremes s o) as [Ehh Ell].
  rewrite step_unfold. cbv zeta. unfold reaches_management.
  destruct (trading_halted (after_day_logic s o)) eqn:Hh; cbn [negb andb].
  { split; [discriminate | intros (_ & ? & _); discriminate]. }
  destruct (breach p s o) eqn:Hb; cbn [negb andb].
  { split; [discriminate | intros (_ & ? & _); discriminate]. }
  destruct (time_geb (dt_time o) market_close) eqn:Hc; cbn [negb andb].
  { split; [discriminate | intros (_ & ? & _); discriminate]. }
  destruct (time_eqb (dt_time o) first_bar_close) eqn:He; cbn [negb].
  { rewrite first_bar_entry_unfold.
    split; [|intros (_ & ? & _); discriminate].
    destruct (has_position o); [discriminate|].
    destruct (Qgtb (dataclose o) (dataopen o)); discriminate. }
  destruct (Z.lt_trichotomy (position_size o) 0) as [Hneg | [Hz | Hpos]].
  - destruct (lowest_low s) as [l|] eqn:Hl.
    + rewrite (trade_management_short p o _ _ l Hneg) by congruence.
      cbv zeta. split.
      * destruct (match reversal_dist p o with
                  | Some d => Qgtb (dataclose o) (py_min l (datalow o) + d)
                  | None => false
                  end); [discriminate|].
        destruct (is_vol_spike p o && Qgtb (dataclose o) (dataclose_prev o));
          discriminate.
      * intros (_ & _ & [[? _] | [_ ?]]); [lia | discriminate].
    + rewrite trade_management_short_none by congruence. split.
      * intros [= <-]. repeat split. right. now split.
      * intros (-> & _). reflexivity.
  - rewrite trade_management_flat by exact Hz. split; [discriminate|].
    intros (_ & _ & [[? _] | [? _]]); lia.
  - destruct (highest_high s) as [h|] eqn:Hhh.
    + rewrite (trade_management_long p o _ _ h Hpos) by congruence.
      cbv zeta. split.
      * destruct (match reversal_dist p o with
                  | Some d => Qltb (dataclose o) (py_max h (datahigh o) - d)
                  | None => false
                  end); [discriminate|].
        destruct (is_vol_spike p o && Qltb (dataclose o) (dataclose_prev o));
          discriminate.
      * intros (_ & _ & [[_ ?] | [? _]]); [discriminate | lia].
    + rewrite trade_management_long_none by congruence. split.
      * intros [= <-]. repeat split. left. now split.
      * intros (-> & _). reflexivity.
Qed.

Lemma next_raises_only_on_unset_extreme_witness :
  step default_params Examples.s_untracked Examples.bar_hold
    = Raise TypeError.
Proof.
  apply (next_raises_only_on_unset_extreme default_params
           Examples.s_untracked Examples.bar_hold TypeError).
  split; [reflexivity|]. split; [reflexivity|].
  left. split; reflexivity.
Defined.

Lemma py_max_spec (a b : Q) :
  a <= py_max a b /\ b <= py_max a b /\ (py_max a b = a \/ py_max a b = b).
Proof.
  unfold py_max, Qgtb. destruct (Qltb a b) eqn:E.
  - apply Qltb_iff in E. repeat split;
      [now apply Qlt_le_weak | apply Qle_refl | now right].
  - apply Qltb_false_iff in E. repeat split;
      [apply Qle_refl | exact E | now left].
Qed.

Lemma py_min_spec (a b : Q) :
  py_min a b <= a /\ py_min a b <= b /\ (py_min a b = a \/ py_min a b = b).
Proof.
  unfold py_min. destruct (Qltb b a) eqn:E.
  - apply Qltb_iff in E. repeat split;
      [now apply Qlt_le_weak | apply Qle_refl | now right].
  - apply Qltb_false_iff in E. repeat split;
      [apply Qle_refl | exact E | now left].
Qed.

(** X10. The tracked extremes only ratchet.  On a bar that reaches the
    trade management, a long's [highest_high] ends at least as high as it
    was and as the bar's high, and is one of the two; a short's
    [lowest_low] ends at most as low as it was and as the bar's low, and is
    one of the two.  This holds also on a bar that reverses. *)
Theorem extremes_ratchet (p : Params) (s : State) (o : Obs) (s' : State)
    (t : list Action) :
  reaches_management p s o = true ->
  step p s o = Ok (s', t) ->
  (forall h, (0 < position_size o)%Z -> highest_high s = Some h ->
     exists h', highest_high s' = Some h' /\
                h <= h' /\ datahigh o <= h' /\
                (h' = h \/ h' = datahigh o)) /\
  (forall l, (position_size o < 0)%Z -> lowest_low s = Some l ->
     exists l', lowest_low s' = Some l' /\
                l' <= l /\ l' <= datalow o /\
                (l' = l \/ l' = datalow o)).
Proof.
  intros Hm Hs. destruct (step_inv _ _ _ _ _ Hs) as (body & _ & HP).
  split.
  - intros h Hpos Hh. exists (py_max h (datahigh o)).
    split; [|apply py_max_spec].
    inversion HP; subst; management_gates; try congruence; try lia;
      match goal with
      | H : highest_high s = Some ?x |- _ =>
          rewrite Hh in H; inversion H; subst; reflexivity
      end.
  - intros l Hneg Hl. exists (py_min l (datalow o)).
    split; [|apply py_min_spec].
    inversion HP; subst; management_gates; try congruence; try lia;
      match goal with
      | H : lowest_low s = Some ?x |- _ =>
          rewrite Hl in H; inversion H; subst; reflexivity
      end.
Qed.

Lemma extremes_ratchet_witness :
  exists h',
    highest_high (set_highest_high (py_max 5010 5012) Examples.s_long)
      = Some h' /\
    5010 <= h' /\ datahigh Examples.bar_hold <= h' /\
    (h' = 5010 \/ h' = datahigh Examples.bar_hold).
Proof.
  destruct (extremes_ratchet default_params Examples.s_long Examples.bar_hold
              (set_highest_high (py_max 5010 5012) Examples.s_long) []
              eq_refl eq_refl) as [L _].
  exact (L 5010 eq_refl eq_refl).
Defined.

(** X11. A volume-spike reversal does what a trailing one does.  When it
    fires on a long it closes and sells the fixed size and sets
    [lowest_low] to the bar's low; on a short it closes and buys the fixed
    size and sets [highest_high] to the bar's high; it is the only
    reversal of its bar. *)
Theorem volume_reversal_effect (p : Params) (s : State) (o : Obs)
    (s' : State) (t : list Action) :
  step p s o = Ok (s', t) ->
  volume_fired t = true ->
  reversals t = 1%nat /\
  ((0 < position_size o)%Z ->
   logged (MReversalLongShort VolumeSpikeBearish) t = true /\
   orders t = [AClose; ASell (fixed_size p)] /\
   lowest_low s' = Some (datalow o)) /\
  ((position_size o < 0)%Z ->
   logged (MReversalShortLong VolumeSpikeBullish) t = true /\
   orders t = [AClose; ABuy (fixed_size p)] /\
   highest_high s' = Some (datahigh o)).
Proof.
  intros Hs Hv. destruct (step_inv _ _ _ _ _ Hs) as (body & -> & HP).
  rewrite volume_fired_day in Hv.
  rewrite reversals_day, orders_day, !logged_app.
  inversion HP; subst; try discriminate Hv;
    try (destruct (has_position o); discriminate Hv).
  - split; [reflexivity|]. split; [|intro; lia].
    intros _. cbn. rewrite orb_true_r. repeat split.
  - split; [reflexivity|]. split; [intro; lia|].
    intros _. cbn. rewrite orb_true_r. repeat split.
Qed.

Lemma volume_reversal_effect_witness :
  reversals [ALog (MReversalLongShort VolumeSpikeBearish); AClose; ASell 1]
    = 1%nat /\
  ((0 < position_size Examples.bar_volume)%Z ->
   logged (MReversalLongShort VolumeSpikeBearish)
     [ALog (MReversalLongShort VolumeSpikeBearish); AClose; ASell 1]
     = true /\
   orders [ALog (MReversalLongShort VolumeSpikeBearish); AClose; ASell 1]
     = [AClose; ASell (fixed_size default_params)] /\
   lowest_low
     (set_lowest_low 5008
        (set_highest_high (py_max 5010 5012) Examples.s_long))
     = Some (datalow Examples.bar_volume)).
Proof.
  destruct (volume_reversal_effect default_params Examples.s_long
              Examples.bar_volume
              (set_lowest_low 5008
                 (set_highest_high (py_max 5010 5012) Examples.s_long))
              [ALog (MReversalLongShort VolumeSpikeBearish); AClose; ASell 1]
              eq_refl eq_refl) as (A & B & _).
  split; [exact A | exact B].
Defined.

End StrategyExtras.

(** * Further properties of the Monte Carlo analysis *)

Module MonteCarloExtras.
Import MonteCarlo MonteCarloExamples MonteCarloFacts.

Lemma Qsum_cons (x : Q) (l : list Q) : Qsum (x :: l) == x + Qsum l.
Proof.
  unfold Qsum. cbn [fold_left]. rewrite fold_plus_shift. ring.
Qed.

Lemma first_seen_length (l : list Z) :
  forall seen, (length (first_seen seen l) <= length l)%nat.
Proof.
  induction l as [|k l IH]; intro seen; cbn; [lia|].
  destruct (existsb (Z.eqb k) seen).
  - specialize (IH seen). lia.
  - specialize (IH (seen ++ [k])). cbn. lia.
Qed.

(** X13. The trading days of the analysis.  [days], the length of the
    daily sequence, counts each close date once: the keys are exactly the
    dates on which a trade closed, without repetition, so there are at most
    as many days as trades, and none when there is no trade. *)
Theorem days_are_distinct_close_dates (trade_list : list Trade) :
  exists daily_pnls,
    daily_pnls_of trade_list = Ok daily_pnls /\
    NoDup (dict_keys daily_pnls) /\
    (forall d, In d (dict_keys daily_pnls) <->
               In d (map close_date trade_list)) /\
    length (dict_values daily_pnls) = length (dict_keys daily_pnls) /\
    (length (dict_values daily_pnls) <= length trade_list)%nat /\
    (trade_list = [] <-> dict_values daily_pnls = []).
Proof.
  destruct (add_trades_spec trade_list []) as (d' & E & K & M & _).
  cbn in K, M.
  destruct (first_seen_spec (map close_date trade_list) []) as [N I].
  exists d'. split; [exact E|]. split; [now rewrite K|].
  assert (Hin : forall d, In d (dict_keys d') <->
                          In d (map close_date trade_list)).
  { intro d. rewrite <- existsb_eqb_In, <- dict_mem_keys, M.
    apply existsb_date_In. }
  split; [exact Hin|].
  assert (Hlen : length (dict_values d') = length (dict_keys d'))
    by (unfold dict_values, dict_keys; now rewrite !length_map).
  split; [exact Hlen|]. split.
  - rewrite Hlen, K.
    rewrite <- (length_map close_date trade_list). apply first_seen_length.
  - split.
    + intros ->. cbn in E. inversion E; subst. reflexivity.
    + intro Hv. destruct trade_list as [|tr l]; [reflexivity|].
      exfalso. assert (Hk : In (close_date tr) (dict_keys d'))
        by (apply Hin; now left).
      rewrite Hv in Hlen. destruct (dict_keys d'); [contradiction|].
      discriminate Hlen.
Qed.

(** The walk from a positive peak, with the peak it ends at. *)
Lemma walk_full_spec (daily_seq : list Q) :
  forall pre x pk dd,
    0 < pk ->
    walk (mk_walk (pre ++ [x]) pk dd) daily_seq =
    Ok (mk_walk ((pre ++ [x]) ++ sums_from x daily_seq)
                (fold_left keep_max (sums_from x daily_seq) pk)
                (fold_left keep_max (dd_list pk x daily_seq) dd)).
Proof.
  induction daily_seq as [|p rest IH]; intros pre x pk dd Hpk.
  - cbn. now rewrite app_nil_r.
  - cbn [walk]. unfold walk_step. cbn [equity peak drawdown].
    rewrite (py_index_last pre x 0).
    fold (keep_max pk (x + p)).
    assert (Hpk' : 0 < keep_max pk (x + p)).
    { eapply Qlt_le_trans; [exact Hpk | apply keep_max_ge]. }
    assert (Hz : Qeq_bool (keep_max pk (x + p)) 0 = false).
    { destruct (Qeq_bool (keep_max pk (x + p)) 0) eqn:E; [|reflexivity].
      apply Qeq_bool_iff in E. rewrite E in Hpk'.
      exfalso. exact (Qlt_irrefl _ Hpk'). }
    rewrite Hz.
    fold (keep_max dd ((keep_max pk (x + p) - (x + p)) / keep_max pk (x + p))).
    rewrite (IH (pre ++ [x]) (x + p) _ _ Hpk').
    cbn [sums_from dd_list fold_left].
    rewrite <- !app_assoc. reflexivity.
Qed.

Lemma walk_of_trial (starting_equity : Q) (daily_seq : list Q) :
  0 < starting_equity ->
  walk (mk_walk [starting_equity] starting_equity 0) daily_seq =
  Ok (mk_walk (path_of starting_equity daily_seq)
              (fold_left keep_max (sums_from starting_equity daily_seq)
                         starting_equity)
              (dd_of starting_equity daily_seq)).
Proof.
  intro H. exact (walk_full_spec daily_seq [] _ _ 0 H).
Qed.

Lemma fold_keep_max_bounds (l : list Q) :
  forall a,
    Forall (fun e => e <= fold_left keep_max l a) (a :: l) /\
    In (fold_left keep_max l a) (a :: l).
Proof.
  induction l as [|y l IH]; intro a; cbn [fold_left].
  - split; [repeat constructor; apply Qle_refl | now left].
  - destruct (IH (keep_max a y)) as [F I].
    inversion F as [|? ? Hk F']; subst.
    destruct (keep_max_ge a y) as [Ha Hy].
    split.
    + constructor; [eapply Qle_trans; eassumption|].
      constructor; [eapply Qle_trans; eassumption | exact F'].
    + destruct I as [I | I]; [|right; now right].
      rewrite <- I. unfold keep_max.
      destruct (Qgtb y a); [right; now left | now left].
Qed.

(** X15. The running peak is the highest point of the path.  A walk from a
    positive starting equity ends with [peak] equal to one of the values of
    its equity path and at least as large as every one of them, the
    starting equity included. *)
Theorem peak_is_path_maximum (starting_equity : Q) (daily_seq : list Q) :
  0 < starting_equity ->
  exists w,
    walk (mk_walk [starting_equity] starting_equity 0) daily_seq = Ok w /\
    In (peak w) (equity w) /\
    Forall (fun e => e <= peak w) (equity w) /\
    starting_equity <= peak w.
Proof.
  intro Hs. eexists. split; [now apply walk_of_trial|].
  cbn [peak equity]. unfold path_of.
  destruct (fold_keep_max_bounds (sums_from starting_equity daily_seq)
              starting_equity) as [F I].
  split; [exact I|]. split; [exact F|].
  now inversion F.
Qed.

Lemma peak_is_path_maximum_witness :
  exists w,
    walk (mk_walk [STARTING_EQUITY] STARTING_EQUITY 0) sample_pnl = Ok w /\
    In (peak w) (equity w) /\
    Forall (fun e => e <= peak w) (equity w) /\
    STARTING_EQUITY <= peak w.
Proof.
  apply peak_is_path_maximum. reflexivity.
Defined.

Lemma dd_list_at_most_one (l : list Q) :
  forall pk x,
    0 < pk -> Forall (fun e => 0 <= e) (sums_from x l) ->
    Forall (fun d => d <= 1) (dd_list pk x l).
Proof.
  induction l as [|p l IH]; intros pk x Hpk Hl; [constructor|].
  cbn [sums_from] in Hl. inversion Hl as [|? ? Hv Hl']; subst.
  cbn [dd_list].
  assert (Hpk' : 0 < keep_max pk (x + p)).
  { eapply Qlt_le_trans; [exact Hpk | apply keep_max_ge]. }
  constructor; [|now apply IH].
  apply Qle_shift_div_r; [exact Hpk'|]. lra.
Qed.

Lemma fold_keep_max_le (l : list Q) (b : Q) :
  forall a, a <= b -> Forall (fun d => d <= b) l ->
            fold_left keep_max l a <= b.
Proof.
  induction l as [|y l IH]; intros a Ha Hl; cbn [fold_left]; [exact Ha|].
  inversion Hl; subst. apply IH; [|assumption].
  unfold keep_max. now destruct (Qgtb y a).
Qed.

(** X16. The walk has no floor at zero, but while the equity stays at or
    above zero the drawdown stays at or below 100 percent: a walk from a
    positive starting equity whose path never goes negative ends with a
    drawdown fraction of at most 1, reported as at most 100. *)
Theorem drawdown_at_most_100 (starting_equity : Q) (daily_seq : list Q) :
  0 < starting_equity ->
  Forall (fun e => 0 <= e) (path_of starting_equity daily_seq) ->
  exists w,
    walk (mk_walk [starting_equity] starting_equity 0) daily_seq = Ok w /\
    equity w = path_of starting_equity daily_seq /\
    drawdown w <= 1 /\ drawdown w * 100 <= 100.
Proof.
  intros Hs Hp. eexists. split; [now apply walk_of_trial|].
  cbn [equity drawdown]. split; [reflexivity|].
  unfold path_of in Hp. inversion Hp as [|? ? _ Hp']; subst.
  assert (H1 : dd_of starting_equity daily_seq <= 1).
  { unfold dd_of. apply fold_keep_max_le; [discriminate|].
    now apply dd_list_at_most_one. }
  split; [exact H1 | lra].
Qed.

Lemma drawdown_at_most_100_witness :
  exists w,
    walk (mk_walk [STARTING_EQUITY] STARTING_EQUITY 0) [-3000; 500; -2500]
      = Ok w /\
    equity w = path_of STARTING_EQUITY [-3000; 500; -2500] /\
    drawdown w <= 1 /\ drawdown w * 100 <= 100.
Proof.
  apply drawdown_at_most_100; [reflexivity|].
  repeat constructor; discriminate.
Defined.

Lemma draws_in (random : nat -> Q) (pnl_sequence : list Q) (calls : nat) :
  (forall n, 0 <= random n /\ random n < 1) ->
  Forall (fun x => In x pnl_sequence) (draws random pnl_sequence calls).
Proof.
  intro Hr. unfold draws. apply Forall_forall. intros x Hx.
  apply in_map_iff in Hx. destruct Hx as (i & <- & Hi).
  apply in_seq in Hi.
  destruct (Hr (calls + i)%nat) as [H0 H1].
  assert (Hn : (0 < length pnl_sequence)%nat) by lia.
  pose proof (draw_index_range _ _ H0 H1 Hn) as [L U].
  apply nth_In. unfold draw_index. lia.
Qed.

Lemma Qsum_below (l : list Q) (b : Q) :
  b <= 0 -> l <> [] -> Forall (fun x => x < b) l -> Qsum l < b.
Proof.
  intros Hb Hne Hl. induction l as [|x l IH]; [contradiction|].
  inversion Hl as [|? ? Hx Hl']; subst. rewrite Qsum_cons.
  destruct l as [|y l].
  - unfold Qsum. cbn. lra.
  - assert (Qsum (y :: l) < b) by (apply IH; [discriminate | exact Hl']).
    lra.
Qed.

Lemma Qsum_nonneg (l : list Q) :
  Forall (fun x => 0 <= x) l -> 0 <= Qsum l.
Proof.
  induction 1 as [|x l Hx _ IH].
  - unfold Qsum. cbn. lra.
  - rewrite Qsum_cons. lra.
Qed.

Lemma filter_all {A} (f : A -> bool) (l : list A) :
  Forall (fun x => f x = true) l -> filter f l = l.
Proof.
  induction 1 as [|x l Hx _ IH]; cbn; [reflexivity|]. now rewrite Hx, IH.
Qed.

Lemma filter_none {A} (f : A -> bool) (l : list A) :
  Forall (fun x => f x = false) l -> filter f l = [].
Proof.
  induction 1 as [|x l Hx _ IH]; cbn; [reflexivity|]. now rewrite Hx.
Qed.

(** X17. The risk of ruin of the script's run (1000 trials from 5000,
    ruin below 2500).  It is a percentage between 0 and 100; it is 0 when
    no daily value is a loss, and 100 when the daily sequence is not empty
    and every daily value is a loss of more than 2500. *)
Theorem risk_of_ruin_range (random : nat -> Q)
    (random_unit : forall n, 0 <= random n /\ random n < 1)
    (pnl_sequence : list Q) :
  exists r,
    simulate random pnl_sequence SIMULATIONS STARTING_EQUITY = Ok r /\
    0 <= risk_of_ruin (final_equities r) /\
    risk_of_ruin (final_equities r) <= 100 /\
    (Forall (fun x => 0 <= x) pnl_sequence ->
     risk_of_ruin (final_equities r) == 0) /\
    (pnl_sequence <> [] -> Forall (fun x => x < -2500) pnl_sequence ->
     risk_of_ruin (final_equities r) == 100).
Proof.
  eexists. split; [apply simulate_spec; [assumption | reflexivity]|].
  cbn [final_equities].
  set (fe := map _ _).
  assert (Hlen : length fe = 1000%nat)
    by (unfold fe; rewrite length_map, length_seq; reflexivity).
  assert (Hc : (length (filter (fun x => Qltb x 2500) fe) <= 1000)%nat)
    by (rewrite <- Hlen; apply filter_length_le).
  assert (Hq : forall c : nat,
             inject_Z (Z.of_nat c) / inject_Z SIMULATIONS * 100
             == inject_Z (Z.of_nat c) * (1 # 10)).
  { intro c. unfold SIMULATIONS. field. }
  unfold risk_of_ruin. rewrite Hq.
  set (c := length (filter (fun x => Qltb x 2500) fe)) in *.
  assert (B0 : 0 <= inject_Z (Z.of_nat c)).
  { change 0 with (inject_Z 0). rewrite <- Zle_Qle. lia. }
  assert (B1 : inject_Z (Z.of_nat c) <= 1000).
  { change 1000 with (inject_Z 1000). rewrite <- Zle_Qle. lia. }
  split; [lra|]. split; [lra|]. split.
  - intro Hg. subst c. rewrite filter_none; [cbn; reflexivity|].
    unfold fe. apply Forall_forall. intros x Hx.
    apply in_map_iff in Hx. destruct Hx as (k & <- & _).
    apply Qltb_false_iff. rewrite fold_plus_shift.
    pose proof (Qsum_nonneg _ (draws_gains random pnl_sequence
                                 (0 + k * length pnl_sequence) Hg)) as Hs.
    unfold trial_draws, STARTING_EQUITY. unfold Qsum in Hs. lra.
  - intros Hne Hl. subst c. rewrite filter_all.
    + rewrite Hlen. reflexivity.
    + unfold fe. apply Forall_forall. intros x Hx.
      apply in_map_iff in Hx. destruct Hx as (k & <- & _).
      apply Qltb_iff. rewrite fold_plus_shift.
      assert (Hs : Qsum (trial_draws random pnl_sequence 0 k) < -2500).
      { apply Qsum_below; [discriminate | |].
        - intro E. apply (f_equal (@length Q)) in E.
          unfold trial_draws in E. rewrite draws_length in E.
          destruct pnl_sequence; [contradiction | discriminate].
        - pose proof (draws_in random pnl_sequence
                        (0 + k * length pnl_sequence) random_unit) as Hin.
          unfold trial_draws. rewrite Forall_forall in *.
          intros y Hy. apply Hl, Hin, Hy. }
      unfold STARTING_EQUITY. unfold Qsum in Hs. lra.
Qed.

Lemma ruinous_pnl_losses : Forall (fun x => x < -2500) ruinous_pnl.
Proof. repeat constructor. Qed.

Lemma risk_of_ruin_range_witness :
  exists r,
    simulate sample_random ruinous_pnl SIMULATIONS STARTING_EQUITY = Ok r /\
    risk_of_ruin (final_equities r) == 100.
Proof.
  destruct (risk_of_ruin_range sample_random sample_random_unit ruinous_pnl)
    as (r & E & _ & _ & _ & H).
  exists r. split; [exact E|].
  apply H; [discriminate | exact ruinous_pnl_losses].
Defined.

Lemma draws_ext (random random' : nat -> Q) (pnl_sequence : list Q)
    (calls : nat) :
  (forall i, (i < length pnl_sequence)%nat ->
             random (calls + i)%nat = random' (calls + i)%nat) ->
  draws random pnl_sequence calls = draws random' pnl_sequence calls.
Proof.
  intro H. unfold draws. apply map_ext_in. intros i Hi.
  apply in_seq in Hi. unfold draw_index. rewrite H by lia. reflexivity.
Qed.

(** X18. Trials do not share randomness.  Trial number [k] reads the
    generator only at the calls [k * n] to [k * n + n - 1], [n] the number
    of days: two generators that agree on that block give trial [k] the
    same equity path, the same final equity and the same reported
    drawdown, whatever they return elsewhere. *)
Theorem trial_uses_its_own_block (random random' : nat -> Q)
    (random_unit : forall n, 0 <= random n /\ random n < 1)
    (random_unit' : forall n, 0 <= random' n /\ random' n < 1)
    (pnl_sequence : list Q) (simulations : Z) (starting_equity : Q)
    (k : nat) :
  0 < starting_equity ->
  (k < Z.to_nat simulations)%nat ->
  (forall i, (i < length pnl_sequence)%nat ->
     random (k * length pnl_sequence + i)%nat
     = random' (k * length pnl_sequence + i)%nat) ->
  exists r r',
    simulate random pnl_sequence simulations starting_equity = Ok r /\
    simulate random' pnl_sequence simulations starting_equity = Ok r' /\
    nth_error (all_curves r) k = nth_error (all_curves r') k /\
    nth_error (final_equities r) k = nth_error (final_equities r') k /\
    nth_error (max_drawdowns r) k = nth_error (max_drawdowns r') k /\
    nth_error (all_curves r) k <> None.
Proof.
  intros Hs Hk Hagree. do 2 eexists.
  split; [apply simulate_spec; assumption|].
  split; [apply simulate_spec; assumption|].
  cbn [all_curves final_equities max_drawdowns].
  rewrite !nth_error_map_seq by exact Hk.
  assert (E : trial_draws random pnl_sequence 0 k
              = trial_draws random' pnl_sequence 0 k).
  { unfold trial_draws. apply draws_ext. exact Hagree. }
  rewrite E. repeat split. discriminate.
Qed.

Lemma other_random_unit :
  forall n, 0 <= other_random n /\ other_random n < 1.
Proof.
  intro n. unfold other_random.
  destruct ((40 <=? n)%nat && (n <? 60)%nat).
  - apply sample_random_unit.
  - split; [discriminate | reflexivity].
Qed.

Lemma trial_uses_its_own_block_witness :
  exists r r',
    simulate sample_random sample_pnl SIMULATIONS STARTING_EQUITY = Ok r /\
    simulate other_random sample_pnl SIMULATIONS STARTING_EQUITY = Ok r' /\
    nth_error (all_curves r) 2 = nth_error (all_curves r') 2 /\
    nth_error (final_equities r) 2 = nth_error (final_equities r') 2 /\
    nth_error (max_drawdowns r) 2 = nth_error (max_drawdowns r') 2 /\
    nth_error (all_curves r) 2 <> None.
Proof.
  apply (trial_uses_its_own_block sample_random other_random
           sample_random_unit other_random_unit sample_pnl SIMULATIONS
           STARTING_EQUITY 2).
  - reflexivity.
  - apply Nat.ltb_lt. reflexivity.
  - intros i Hi. unfold other_random.
    change (length sample_pnl) with 20%nat in *.
    assert (E1 : (40 <=? 2 * 20 + i)%nat = true) by (apply Nat.leb_le; lia).
    assert (E2 : (2 * 20 + i <? 60)%nat = true) by (apply Nat.ltb_lt; lia).
    now rewrite E1, E2.
Defined.

Lemma map_const_repeat {A B} (f : A -> B) (b : B) (l : list A) :
  (forall x, In x l -> f x = b) -> map f l = repeat b (length l).
Proof.
  induction l as [|x l IH]; intro H; cbn; [reflexivity|].
  rewrite H by now left. f_equal. apply IH. intros y Hy. apply H. now right.
Qed.

(** X19. A single trading day leaves nothing to resample.  With a daily
    sequence of one value every draw is that value, so all trials are the
    same: the path from the starting equity to the starting equity plus
    that value, whatever the generator returns. *)
Theorem single_day_trials_coincide (random : nat -> Q)
    (random_unit : forall n, 0 <= random n /\ random n < 1)
    (pnl : Q) (simulations : Z) (starting_equity : Q) :
  0 < starting_equity ->
  simulate random [pnl] simulations starting_equity =
  Ok (mk_results
        (repeat (starting_equity + pnl) (Z.to_nat simulations))
        (repeat (dd_of starting_equity [pnl] * 100) (Z.to_nat simulations))
        (repeat [starting_equity; starting_equity + pnl]
                (Z.to_nat simulations))).
Proof.
  intro Hs. rewrite simulate_spec by assumption.
  assert (E : forall k, trial_draws random [pnl] 0 k = [pnl]).
  { intro k.
    pose proof (draws_in random [pnl] (0 + k * 1) random_unit) as Hin.
    pose proof (draws_length random [pnl] (0 + k * 1)) as Hl.
    unfold trial_draws. cbn [length] in *.
    destruct (draws random [pnl] (0 + k * 1)) as [|x [|y l]];
      try discriminate Hl.
    inversion Hin as [|? ? Hx _]; subst.
    destruct Hx as [<- | []]. reflexivity. }
  assert (R : forall (B : Type) (f : nat -> B) (b : B) (m : nat),
               (forall k, f k = b) -> map f (seq 0 m) = repeat b m).
  { intros B f b m Hf. rewrite (map_const_repeat f b) by (intros; apply Hf).
    now rewrite length_seq. }
  rewrite (R _ _ (starting_equity + pnl)) by (intro k; now rewrite E).
  rewrite (R _ _ (dd_of starting_equity [pnl] * 100))
    by (intro k; now rewrite E).
  rewrite (R _ _ [starting_equity; starting_equity + pnl])
    by (intro k; now rewrite E).
  reflexivity.
Qed.

Lemma single_day_trials_coincide_witness :
  simulate sample_random [-80] 3 STARTING_EQUITY =
  Ok (mk_results
        (repeat (STARTING_EQUITY + -80) (Z.to_nat 3))
        (repeat (dd_of STARTING_EQUITY [-80] * 100) (Z.to_nat 3))
        (repeat [STARTING_EQUITY; STARTING_EQUITY + -80] (Z.to_nat 3))).
Proof.
  apply (single_day_trials_coincide sample_random sample_random_unit).
  reflexivity.
Defined.

End MonteCarloExtras.
